(** * gpt_researcher.scraper: strategy selection, per-URL tasks, API adapters

    A shallow embedding of
      - [gpt_researcher/scraper/scraper.py]          (class [Scraper]),
      - [gpt_researcher/scraper/scraperapi/scraperapi.py]   (class [ScraperAPI]),
      - [gpt_researcher/scraper/scraping_bee/scraping_bee.py] and
        [gpt_researcher/scraper/zenrows/zenrows.py]  (the two client adapters),
    together with the properties the specification states about them.

    Conventions.  Python [str] values are Rocq [string]s, one [ascii] per
    character (code points below 256).  A Python call that may raise returns
    a [result]; [Raise e] stands for an instance [e] of a subclass of
    Python's [Exception], which is what the handlers of the source
    ([except Exception], [except requests.exceptions.ConnectionError]) test.
    Collaborators outside the modelled files (the concrete scraper classes,
    the HTTP clients, BeautifulSoup, the database) are arguments of the
    functions that call them. *)

From Stdlib Require Import ZArith Ascii String DecimalString List Bool Lia.
From stdpp Require Import base option list gmap strings.

Local Open Scope string_scope.

(** ** Python strings *)

Module PyStr.

(** [s.endswith(suffix)] *)
Fixpoint endswith (s suffix : string) : bool :=
  String.eqb s suffix ||
  match s with
  | EmptyString => false
  | String _ s' => endswith s' suffix
  end.

(** [needle in hay] for two strings: [needle] occurs as a substring. *)
Fixpoint str_in (needle hay : string) : bool :=
  String.prefix needle hay ||
  match hay with
  | EmptyString => false
  | String _ hay' => str_in needle hay'
  end.

(** [sep.join(parts)] *)
Definition join (sep : string) (parts : list string) : string :=
  String.concat sep parts.

(** [len(s)] *)
Definition len (s : string) : Z := Z.of_nat (String.length s).

(** The one-character string with a line feed (backslash n in Python). *)
Definition LF : string := String "010" EmptyString.

End PyStr.

(** ** Exceptions and fallible calls *)

(** Instances of (subclasses of) Python's [Exception]. *)
Inductive exn : Type :=
| Exception (msg : string)            (* a plain [Exception(msg)] *)
| TypeError (msg : string)
| ValueError (msg : string)
| UnboundLocalError (var : string)
| ConnectionError (msg : string)      (* requests.exceptions.ConnectionError *)
| OtherError (cls msg : string).      (* any other subclass of [Exception] *)

Inductive result (A : Type) : Type :=
| Ok (a : A)
| Raise (e : exn).
Arguments Ok {A} a.
Arguments Raise {A} e.

#[global] Instance result_ret : MRet result := fun _ a => Ok a.
#[global] Instance result_bind : MBind result := fun _ _ k m =>
  match m with
  | Ok a => k a
  | Raise e => Raise e
  end.

(** [try: body  except Exception as e: handler(e)] *)
Definition try_except {A} (body : result A) (handler : exn -> result A) : result A :=
  match body with
  | Ok a => Ok a
  | Raise e => handler e
  end.

(** The call returns a value: it does not raise. *)
Definition returns {A} (m : result A) : Prop := exists a, m = Ok a.

(** ** scraper.py: the registry of strategies *)

Inductive ScraperClass : Type :=
| PyMuPDFScraper
| ArxivScraper
| BeautifulSoupScraper
| WebBaseLoaderScraper
| BrowserScraper
| NoDriverScraper
| TavilyExtract
| FireCrawl.

(** The dict literal of [Scraper.get_scraper] (scraper.py, lines 189-198). *)
Definition SCRAPER_CLASSES : gmap string ScraperClass :=
  list_to_map
    [ ("pdf", PyMuPDFScraper);
      ("arxiv", ArxivScraper);
      ("bs", BeautifulSoupScraper);
      ("web_base_loader", WebBaseLoaderScraper);
      ("browser", BrowserScraper);
      ("nodriver", NoDriverScraper);
      ("tavily_extract", TavilyExtract);
      ("firecrawl", FireCrawl) ].

(** The fields of a [Scraper] instance that the modelled methods read.
    [job_id] is [None] for Python's [None]; [db] tells whether
    [DatabaseManager()] was built ([self.db = DatabaseManager() if job_id
    else None]). *)
Record Scraper : Type := {
  urls : list string;
  scraper : string;
  job_id : option string;
  db : bool
}.

(** The local variable [scraper_key] of [get_scraper] once the
    [if]/[elif]/[else] of lines 202-207 has run. *)
Definition scraper_key (self : Scraper) (link : string) : string :=
  if PyStr.endswith link ".pdf" then "pdf"
  else if PyStr.str_in "arxiv.org" link then "arxiv"
  else scraper self.

(** [Scraper.get_scraper] (lines 172-213). *)
Definition get_scraper (self : Scraper) (link : string) : result ScraperClass :=
  match SCRAPER_CLASSES !! scraper_key self link with
  | Some scraper_class => Ok scraper_class
  | None => Raise (Exception "Scraper not found.")
  end.

(** ** scraper.py: one extraction task per URL *)

(** Values the source handles that are either [None] or a [str]. *)
Inductive pyval : Type :=
| PyNone
| PyStr (s : string).

(** [len(v)]: a [str] has a length, [len(None)] raises [TypeError]. *)
Definition py_len (v : pyval) : result Z :=
  match v with
  | PyStr s => Ok (PyStr.len s)
  | PyNone => Raise (TypeError "object of type 'NoneType' has no len()")
  end.

(** [v is not None] *)
Definition is_not_None (v : pyval) : bool :=
  match v with
  | PyNone => false
  | PyStr _ => true
  end.

(** Truth value of [self.job_id]: [None] and the empty string are false. *)
Definition job_id_truthy (j : option string) : bool :=
  match j with
  | None => false
  | Some s => negb (String.eqb s "")
  end.

(** The triple [(content, image_urls, title)] a strategy hands back. *)
Record scraped : Type := {
  content : pyval;
  scraped_image_urls : list string;
  scraped_title : string
}.

(** The dict returned by [extract_data_from_url]. *)
Record outcome : Type := {
  url : string;
  raw_content : pyval;
  image_urls : list string;
  title : string
}.

(** The keyword arguments of one [self.db.insert_scraped_page] call. *)
Record page : Type := {
  page_job_id : option string;
  page_url : string;
  page_title : string;
  page_content : pyval;
  meta_scraper : string;
  meta_image_urls : list string;
  meta_content_length : Z
}.

(** [scraper.__class__.__name__] *)
Definition class_name (c : ScraperClass) : string :=
  match c with
  | PyMuPDFScraper => "PyMuPDFScraper"
  | ArxivScraper => "ArxivScraper"
  | BeautifulSoupScraper => "BeautifulSoupScraper"
  | WebBaseLoaderScraper => "WebBaseLoaderScraper"
  | BrowserScraper => "BrowserScraper"
  | NoDriverScraper => "NoDriverScraper"
  | TavilyExtract => "TavilyExtract"
  | FireCrawl => "FireCrawl"
  end.

(** What lies outside scraper.py.  The first argument of every field is
    the position of the task in the batch, so that two tasks for the same
    URL may see different answers from the network.
    - [instantiate i C link]: the call [C(link, session)];
    - [has_scrape_async C]: [hasattr(scraper, "scrape_async")];
    - [scrape_async], [scrape]: the strategy's method, awaited directly or
      run in the worker pool's executor; an answer that is not a triple
      makes the unpacking raise, which is a [Raise] here;
    - [insert_scraped_page]: the database call. *)
Record World : Type := {
  instantiate : nat -> ScraperClass -> string -> result unit;
  has_scrape_async : ScraperClass -> bool;
  scrape_async : nat -> ScraperClass -> string -> result scraped;
  scrape : nat -> ScraperClass -> string -> result scraped;
  insert_scraped_page : nat -> page -> result unit
}.

(** Which [return] statement of [extract_data_from_url] produced a record:
    line 161 ([Accepted]), line 127 ([Rejected]) or line 170 ([Failed]).
    The source has no such field; it is a label on the run of the task. *)
Inductive Status : Type := Accepted | Rejected | Failed.

Record task_run : Type := {
  status : Status;
  record : outcome;
  db_calls : list page
}.

(** Lines 106-123: the strategy is selected, instantiated and asked for
    (content, image_urls, title). *)
Definition call_strategy (w : World) (self : Scraper) (i : nat) (link : string)
  : result (ScraperClass * scraped) :=
  Scraper_ ← get_scraper self link;
  _ ← instantiate w i Scraper_ link;
  r ← (if has_scrape_async w Scraper_
       then scrape_async w i Scraper_ link
       else scrape w i Scraper_ link);
  Ok (Scraper_, r).

(** Lines 106-166: the body of the [try].  The calls to [self.logger] are
    left out: their value is not used and they do not raise. *)
Definition try_body (w : World) (self : Scraper) (i : nat) (link : string)
  : result task_run :=
  '(Scraper_, r) ← call_strategy w self i link;
  let scraper_name := class_name Scraper_ in
  n ← py_len (content r);
  if (n <? 100)%Z then
    Ok {| status := Rejected;
          record := {| url := link; raw_content := PyNone;
                       image_urls := []; title := scraped_title r |};
          db_calls := [] |}
  else
    (* if self.job_id and self.db: *)
    let save := job_id_truthy (job_id self) && db self in
    let pg := {| page_job_id := job_id self; page_url := link;
                 page_title := scraped_title r; page_content := content r;
                 meta_scraper := scraper_name;
                 meta_image_urls := scraped_image_urls r;
                 meta_content_length := n |} in
    (* try: self.db.insert_scraped_page(...)  except Exception: log it *)
    _ ← (if save
         then try_except (insert_scraped_page w i pg) (fun _ => Ok tt)
         else Ok tt);
    Ok {| status := Accepted;
          record := {| url := link; raw_content := content r;
                       image_urls := scraped_image_urls r;
                       title := scraped_title r |};
          db_calls := if save then [pg] else [] |}.

(** Line 170: the record built by the handler of [except Exception]. *)
Definition failed_record (link : string) : outcome :=
  {| url := link; raw_content := PyNone; image_urls := []; title := "" |}.

Definition failed_run (link : string) : task_run :=
  {| status := Failed; record := failed_record link; db_calls := [] |}.

(** Modelled from the spec: [WorkerPool.throttle] of
    [gpt_researcher.utils.workers], a module that is not among the sources.
    Section 4.3 of the specification: a task requests a slot, suspends
    until one is free, runs its strategy while it holds the slot and
    releases the slot on every exit path.  So [async with throttle(): body]
    has the value, or the exception, of [body]. *)
Definition throttle {A} (body : result A) : result A := body.

(** [Scraper.extract_data_from_url] (lines 100-170). *)
Definition extract_data_from_url (w : World) (self : Scraper) (i : nat)
    (link : string) : result task_run :=
  throttle
    (try_except (try_body w self i link) (fun e => Ok (failed_run link))).

(** [await asyncio.gather] over the awaitables [aws]: the results in the
    order of [aws], whatever the order in which they complete; an
    exception raised by one of them is raised to the caller. *)
Fixpoint gather {A} (aws : list (result A)) : result (list A) :=
  match aws with
  | [] => Ok []
  | a :: aws' => x ← a; xs ← gather aws'; Ok (x :: xs)
  end.

(** Line 60-62: one task per URL of [self.urls]. *)
Definition tasks (w : World) (self : Scraper) : list (result task_run) :=
  imap (fun i link => extract_data_from_url w self i link) (urls self).

(** [Scraper.run] (lines 56-65). *)
Definition run (w : World) (self : Scraper) : result (list outcome) :=
  contents ← gather (tasks w self);
  Ok (filter (fun c => is_not_None (raw_content c)) (map record contents)).

(** ** scraperapi.py: bounded retry until a terminal response *)

Module ScraperAPI.

(** The attributes of a [requests.Response] that [scrape_url] reads. *)
Record Response : Type := {
  status_code : Z;
  text : string
}.

(** [bool(response)] is [response.ok]: false exactly for the statuses
    on which [raise_for_status] raises, 400 to 599. *)
Definition ok (r : Response) : bool :=
  negb ((400 <=? status_code r)%Z && (status_code r <? 600)%Z).

(** [ScraperAPI.__init__] (lines 9-11) stores these two attributes. *)
Record t : Type := {
  api_key : string;
  num_retries : Z
}.

(** The local variable [response] of [scrape_url]: not yet assigned,
    or bound to [None] or to a response. *)
Inductive local : Type :=
| Unbound
| Bound (v : option Response).

(** [requests.get(url, params)] as seen by the caller: the answer to the
    request number [i] (from 0) of this call of [scrape_url]. *)
Definition network : Type :=
  nat -> string -> list (string * string) -> result Response.

(** [response.status_code in [200, 404]] *)
Definition terminal (r : Response) : bool :=
  (status_code r =? 200)%Z || (status_code r =? 404)%Z.

(** Lines 34-42: [n] more rounds of the [for] loop, the next request
    being number [i].  The value is the local [response] after the loop
    (or the exception that left it) and the answers received, in order. *)
Fixpoint retry_loop (get : nat -> result Response) (n i : nat)
    (response : local) : result local * list (result Response) :=
  match n with
  | O => (Ok response, [])
  | S n' =>
      let answer := get i in
      match answer with
      | Ok r =>
          if terminal r then (Ok (Bound (Some r)), [answer])
          else
            let '(res, answers) := retry_loop get n' (S i) (Bound (Some r)) in
            (res, answer :: answers)
      | Raise (ConnectionError _) =>
          let '(res, answers) := retry_loop get n' (S i) (Bound None) in
          (res, answer :: answers)
      | Raise e => (Raise e, [answer])
      end
  end.

(** Lines 44-48: what follows the loop. *)
Definition after_loop (response : local) : result string :=
  match response with
  | Unbound => Raise (UnboundLocalError "response")
  | Bound None => Ok ""
  | Bound (Some r) =>
      if ok r && (status_code r =? 200)%Z then Ok (text r) else Ok ""
  end.

(** The address of line 37 and the dict [params] of line 32 (handed
    to [urlencode], which is not modelled). *)
Definition endpoint : string := "http://api.scraperapi.com/".

Definition params (self : t) (url : string) : list (string * string) :=
  [("api_key", api_key self); ("url", url)].

(** [ScraperAPI.scrape_url] (lines 28-48), with the answers received.
    [range(n)] is empty for [n <= 0]. *)
Definition scrape_url (net : network) (self : t) (url : string)
    : result string * list (result Response) :=
  let '(res, answers) :=
    retry_loop (fun i => net i endpoint (params self url))
               (Z.to_nat (num_retries self)) 0 Unbound in
  (response ← res; after_loop response, answers).

End ScraperAPI.

(** ** scraping_bee.py, zenrows.py: the text clean-up both adapters apply *)

Module Normalizer.

(** Characters on which [str.splitlines] ends a line: LF, VT, FF, CR,
    FS, GS, RS and NEL. *)
Definition is_linebreak (c : ascii) : bool :=
  existsb (N.eqb (N_of_ascii c)) [10; 11; 12; 13; 28; 29; 30; 133]%N.

(** Characters [str.strip] removes ([str.isspace]): the line breaks and
    TAB, US, SPACE, NBSP. *)
Definition is_space (c : ascii) : bool :=
  existsb (N.eqb (N_of_ascii c))
          [9; 10; 11; 12; 13; 28; 29; 30; 31; 32; 133; 160]%N.

Definition is_cr (c : ascii) : bool := Ascii.eqb c "013".
Definition is_lf (c : ascii) : bool := Ascii.eqb c "010".
Definition is_sp (c : ascii) : bool := Ascii.eqb c " ".

(** Puts [c] in front of the first piece of a list of pieces. *)
Definition cons_head (c : ascii) (pieces : list string) : list string :=
  match pieces with
  | [] => [String c EmptyString]
  | p :: ps => String c p :: ps
  end.

(** [s.splitlines()]: the lines without their line breaks; CR LF is one
    break; no empty last line after a final break. *)
Fixpoint splitlines (s : string) : list string :=
  match s with
  | EmptyString => []
  | String c s' =>
      if is_linebreak c then
        EmptyString ::
          match s' with
          | String c' s'' =>
              if is_cr c && is_lf c' then splitlines s'' else splitlines s'
          | EmptyString => []
          end
      else cons_head c (splitlines s')
  end.

(** [s.split("  ")]: the pieces between the occurrences of two spaces,
    found from the left. *)
Fixpoint split_double_space (s : string) : list string :=
  match s with
  | EmptyString => [EmptyString]
  | String c s' =>
      match s' with
      | String c' s'' =>
          if is_sp c && is_sp c' then EmptyString :: split_double_space s''
          else cons_head c (split_double_space s')
      | EmptyString => [String c EmptyString]
      end
  end.

(** [s.lstrip()], [s.rstrip()], [s.strip()] *)
Fixpoint lstrip (s : string) : string :=
  match s with
  | EmptyString => EmptyString
  | String c s' => if is_space c then lstrip s' else s
  end.

Fixpoint rstrip (s : string) : string :=
  match s with
  | EmptyString => EmptyString
  | String c s' =>
      match rstrip s' with
      | EmptyString => if is_space c then EmptyString else String c EmptyString
      | r => String c r
      end
  end.

Definition strip (s : string) : string := rstrip (lstrip s).

(** Truth value of a [str]: non-empty. *)
Definition truthy (s : string) : bool := negb (String.eqb s "").

(** scraping_bee.py lines 65-67 and zenrows.py lines 58-60: the three
    lines that compute [lines], [chunks] and [text_content] from
    [raw_content]. *)
Definition lines (raw_content : string) : list string :=
  map strip (splitlines raw_content).

Definition chunks (raw_content : string) : list string :=
  map strip (flat_map split_double_space (lines raw_content)).

Definition text_content (raw_content : string) : string :=
  PyStr.join PyStr.LF (filter (fun chunk => truthy chunk) (chunks raw_content)).

End Normalizer.

(** ** scraping_bee.py, zenrows.py: the two client adapters *)

Module Adapter.

(** Line 5 of both files. *)
Definition PREMIUM_PROXY_DOMAINS : list string :=
  ["reddit.com"; "twitter.com"; "linkedin.com"; "instagram.com"].

(** [True if any(domain in self.link for domain in PREMIUM_PROXY_DOMAINS)
    else False] *)
Definition premium_proxy_flag (link : string) : bool :=
  if existsb (fun domain => PyStr.str_in domain link) PREMIUM_PROXY_DOMAINS
  then true else false.

(** What the adapters read of the client's response. *)
Record Response : Type := {
  status_code : Z;
  content : string;
  encoding : option string
}.

(** [soup = BeautifulSoup(...)], the removal of [script] and [style]
    elements and [self.parse_page(soup)] together: from a response to
    [raw_content].  BeautifulSoup is outside the modelled files. *)
Definition html_reader : Type := Response -> result string.

(** Lines 57-68 (scraping_bee.py) and 50-61 (zenrows.py): what [scrape]
    does with the answer of the client, inside its [try]. *)
Definition read_response (read : html_reader) (answer : result Response)
    : result string :=
  response ← answer;
  raw_content ← read response;
  Ok (Normalizer.text_content raw_content).

End Adapter.

Module ScrapingBeeScraper.

(** The arguments of [self.client.get] (lines 36-53). *)
Record request : Type := {
  url : string;
  block_ads : bool;
  block_resources : bool;
  premium_proxy : bool;
  render_js : bool;
  retries : Z
}.

Definition client : Type := request -> result Adapter.Response.

Definition request_for (link : string) : request :=
  {| url := link;
     block_ads := true;
     block_resources := true;
     premium_proxy := Adapter.premium_proxy_flag link;
     render_js := true;
     retries := 2 |}.

(** [ScrapingBeeScraper.scrape] (lines 30-71), with the requests it
    handed to the client. *)
Definition scrape (get : client) (read : Adapter.html_reader) (link : string)
    : result string * list request :=
  let req := request_for link in
  (try_except (Adapter.read_response read (get req)) (fun e => Ok ""),
   [req]).

End ScrapingBeeScraper.

Module ZenRowsScraper.

(** The arguments of [self.client.get] (lines 36-46). *)
Record request : Type := {
  url : string;
  js_render : string;
  premium_proxy : bool
}.

Definition client : Type := request -> result Adapter.Response.

Definition request_for (link : string) : request :=
  {| url := link;
     js_render := "true";
     premium_proxy := Adapter.premium_proxy_flag link |}.

(** [ZenRowsScraper.scrape] (lines 30-64), with the requests it handed
    to the client. *)
Definition scrape (get : client) (read : Adapter.html_reader) (link : string)
    : result string * list request :=
  let req := request_for link in
  (try_except (Adapter.read_response read (get req)) (fun e => Ok ""),
   [req]).

End ZenRowsScraper.

(** ** Notions used in the statements that the code does not compute *)

Module Spec.

(** The host of a URL as it is written: what follows the first [://]
    (the whole text when there is none) up to the first of [/ ? # :].
    The adapters never compute it; the statements about hosts use it. *)
Definition drop3 (s : string) : string :=
  match s with
  | String _ (String _ (String _ r)) => r
  | _ => EmptyString
  end.

Fixpoint after_scheme (s : string) : option string :=
  match s with
  | EmptyString => None
  | String c s' =>
      if String.prefix "://" s then Some (drop3 s) else after_scheme s'
  end.

Definition ends_host (c : ascii) : bool :=
  existsb (Ascii.eqb c) ["/"; "?"; "#"; ":"]%char.

Fixpoint until_delimiter (s : string) : string :=
  match s with
  | EmptyString => EmptyString
  | String c s' => if ends_host c then EmptyString else String c (until_delimiter s')
  end.

Definition host (link : string) : string :=
  until_delimiter (default link (after_scheme link)).

(** A line of already normalised text: not empty, nothing to strip, no
    line break inside, no two spaces in a row. *)
Definition no_linebreak (l : string) : bool :=
  forallb (fun c => negb (Normalizer.is_linebreak c)) (list_ascii_of_string l).

Definition no_double_space (l : string) : bool :=
  negb (PyStr.str_in "  " l).

Definition normal_line (l : string) : bool :=
  Normalizer.truthy l && String.eqb (Normalizer.strip l) l
  && no_linebreak l && no_double_space l.

(** Normal form: such lines joined by single line feeds. *)
Definition normal_form (t : string) : Prop :=
  exists ls, t = PyStr.join PyStr.LF ls /\ forallb normal_line ls = true.

(** [m] is a piece of [l]. *)
Definition piece_of (m l : string) : Prop := exists p q, l = (p ++ m ++ q)%string.

(** A text with nothing to strip on the left. *)
Definition clean_start (s : string) : Prop :=
  match s with
  | EmptyString => True
  | String c _ => Normalizer.is_space c = false
  end.

End Spec.

(** ** scraper.py: construction of a [Scraper] *)

Module ScraperInit.

(** One entry of the dict [pkg_map] of [_check_pkg] (lines 73-82). *)
Record pkg : Type := {
  package_installation_name : string;
  import_name : string
}.

Definition pkg_map : gmap string pkg :=
  list_to_map
    [ ("tavily_extract",
       {| package_installation_name := "tavily-python";
          import_name := "tavily" |});
      ("firecrawl",
       {| package_installation_name := "firecrawl-py";
          import_name := "firecrawl" |}) ].

(** What the constructor asks of the interpreter:
    - [find_spec name]: is [importlib.util.find_spec(name)] true;
    - [check_call name]: [subprocess.check_call] of
      [pip install name];
    - [new_DatabaseManager]: the call [DatabaseManager()]. *)
Record Interpreter : Type := {
  find_spec : string -> bool;
  check_call : string -> result unit;
  new_DatabaseManager : result unit
}.

(** The class of exception line 93 catches. *)
Definition is_CalledProcessError (e : exn) : bool :=
  match e with
  | OtherError cls _ => String.eqb cls "CalledProcessError"
  | _ => false
  end.

(** The text of the [ImportError] of lines 94-98; [Fore.RED] is the
    escape sequence ESC [31m. *)
Definition install_failed (pkg_inst_name : string) : exn :=
  OtherError "ImportError"
    (String "027" "[31m" ++ "Unable to install " ++ pkg_inst_name
     ++ ". Please install manually with `pip install -U "
     ++ pkg_inst_name ++ "`").

(** [Scraper._check_pkg] (lines 67-98), with the names handed to pip. *)
Definition _check_pkg (py : Interpreter) (scrapper_name : string)
    : result unit * list string :=
  match pkg_map !! scrapper_name with
  | None => (Raise (OtherError "KeyError" scrapper_name), [])
  | Some pkg =>
      if find_spec py (import_name pkg) then (Ok tt, [])
      else
        let pkg_inst_name := package_installation_name pkg in
        (match check_call py pkg_inst_name with
         | Ok _ => Ok tt
         | Raise e =>
             if is_CalledProcessError e
             then Raise (install_failed pkg_inst_name)
             else Raise e
         end,
         [pkg_inst_name])
  end.

(** Lines 49-52: [_check_pkg] is called for the two strategies that need
    a package of their own. *)
Definition check_if (py : Interpreter) (self_scraper name : string)
    : result unit * list string :=
  if String.eqb self_scraper name then _check_pkg py self_scraper
  else (Ok tt, []).

(** [Scraper.__init__] (lines 30-54): the instance, or the exception
    that left the constructor, and the names handed to pip.  The
    [requests.Session] and the logger are not modelled. *)
Definition __init__ (py : Interpreter) (urls : list string)
    (scraper : string) (job_id : option string)
    : result Scraper * list string :=
  match (if job_id_truthy job_id
         then _ ← new_DatabaseManager py; Ok true
         else Ok false) with
  | Raise e => (Raise e, [])
  | Ok db =>
      let '(r1, installs1) := check_if py scraper "tavily_extract" in
      match r1 with
      | Raise e => (Raise e, installs1)
      | Ok _ =>
          let '(r2, installs2) := check_if py scraper "firecrawl" in
          (_ ← r2;
           Ok {| urls := urls; scraper := scraper; job_id := job_id; db := db |},
           (installs1 ++ installs2)%list)
      end
  end.

End ScraperInit.

(** ** scraperapi.py, scraping_bee.py, zenrows.py: construction *)

(** [os.environ] is a map from the variables that are set to their
    values. *)

Module ScraperAPIInit.

(** [ScraperAPI.get_api_key] (lines 13-26): [os.environ[...]] raises
    [KeyError] for a variable that is not set, line 22 turns it into an
    [Exception]. *)
Definition get_api_key (env : gmap string string) : result string :=
  match env !! "SCRAPERAPI_API_KEY" with
  | Some api_key => Ok api_key
  | None =>
      Raise (Exception
        "Scraperapi API key not found. Please set the SCRAPERAPI_API_KEY environment variable.")
  end.

(** [ScraperAPI.__init__] (lines 9-11); [None] stands for a call that
    leaves [num_retries] to its default, 5. *)
Definition __init__ (env : gmap string string) (num_retries : option Z)
    : result ScraperAPI.t :=
  api_key ← get_api_key env;
  Ok {| ScraperAPI.api_key := api_key;
        ScraperAPI.num_retries := default 5%Z num_retries |}.

End ScraperAPIInit.

(** ** scraping_bee.py, zenrows.py: reading the parsed page *)

Module Soup.

(** What the adapters read of an element of the parsed page: its name,
    its [text] and its CSS classes.  A [soup] is the elements of the
    document in document order, as [find_all] walks them.  BeautifulSoup
    itself is outside the modelled files. *)
Record Tag : Type := {
  name : string;
  text : string;
  class_ : list string
}.

Definition soup : Type := list Tag.

(** [soup.find_all(tags)] for a list of names. *)
Definition find_all (tags : list string) (s : soup) : list Tag :=
  filter (fun element => name element ∈ tags) s.

(** [soup.find_all(class_=cssClasses)]: an element matches when one of
    its classes is in the list. *)
Definition find_all_class (cssClasses : list string) (s : soup) : list Tag :=
  filter (fun element => Exists (fun c => c ∈ cssClasses) (class_ element)) s.

(** [parse_page] (scraping_bee.py lines 73-86, zenrows.py lines 66-79):
    the loop [text += element.text + LF]. *)
Definition parse_page (s : soup) : string :=
  let tags := ["p"; "h1"; "h2"; "h3"; "h4"; "h5"] in
  fold_left (fun text_ element => text_ ++ (text element ++ PyStr.LF))
            (find_all tags s) "".

(** [str(n)] for a natural number. *)
Definition str_of_nat (n : nat) : string :=
  DecimalString.NilZero.string_of_uint (Nat.to_uint n).

(** The first loop of [parse_reddit_page]: the texts of the elements of
    class [usertext-body] that are not blank
    ([element.text and element.text.strip() != ""]). *)
Definition comment_array (s : soup) : list string :=
  let cssClasses := ["usertext-body"] in
  fold_left
    (fun acc element =>
       if Normalizer.truthy (text element)
          && negb (String.eqb (Normalizer.strip (text element)) "")
       then (acc ++ [text element])%list else acc)
    (find_all_class cssClasses s) [].

(** [enumerate(l)] *)
Definition enumerate {A} (l : list A) : list (nat * A) :=
  imap (fun index x => (index, x)) l.

(** [parse_reddit_page] (scraping_bee.py lines 88-107, zenrows.py lines
    81-100). *)
Definition parse_reddit_page (s : soup) : string :=
  fold_left
    (fun text_content '(index, comment) =>
       text_content
       ++ ("Comment " ++ str_of_nat (index + 1) ++ ":" ++ PyStr.LF
           ++ comment ++ PyStr.LF))
    (enumerate (comment_array s)) "".

(** The reader the adapters use: [make_soup] is
    [BeautifulSoup(response.content, ...)] followed by the removal of the
    [script] and [style] elements (lines 57-62 and 50-55). *)
Definition reader (make_soup : Adapter.Response -> result soup)
    : Adapter.html_reader :=
  fun response => s ← make_soup response; Ok (parse_page s).

End Soup.

Module ScrapingBeeInit.

(** [ScrapingBeeScraper.get_api_key] (lines 15-28). *)
Definition get_api_key (env : gmap string string) : result string :=
  match env !! "SCRAPING_BEE_API_KEY" with
  | Some api_key => Ok api_key
  | None =>
      Raise (Exception
        "Scraping Bee API key not found. Please set the SCRAPING_BEE_API_KEY environment variable.")
  end.

End ScrapingBeeInit.

Module ZenRowsInit.

(** [ZenRowsScraper.get_api_key] (lines 15-28); the text of the message
    is the one of the source. *)
Definition get_api_key (env : gmap string string) : result string :=
  match env !! "ZEN_ROWS_API_KEY" with
  | Some api_key => Ok api_key
  | None =>
      Raise (Exception
        "Scraping Bee API key not found. Please set the ZEN_ROWS_API_KEY environment variable.")
  end.

End ZenRowsInit.

(** ** db_utils.py: the database manager *)

Module Db.

(** JSON-like Python data ([Dict[str, Any]], lists of strings, [None]). *)
#[warnings="-register-all"]
Inductive json : Type :=
| JNull
| JStr (s : string)
| JInt (z : Z)
| JList (l : list json)
| JDict (items : list (string * json)).

(** Truth value of such data: [None], 0 and the empty string, list and
    dict are false. *)
Definition json_truthy (j : json) : bool :=
  match j with
  | JNull => false
  | JStr s => negb (String.eqb s "")
  | JInt z => negb (z =? 0)%Z
  | JList l => match l with [] => false | _ => true end
  | JDict items => match items with [] => false | _ => true end
  end.

Section Manager.

(** Python floats (the research costs) and the Supabase client are not
    looked into. *)
Variable float : Type.
Variable zero : float.
Variable Client : Type.

(** A column value. *)
Inductive value : Type :=
| VNone
| VStr (s : string)
| VFloat (x : float).

Definition of_option (o : option string) : value :=
  match o with
  | Some s => VStr s
  | None => VNone
  end.

(** What the methods read of the answer of [execute()]: [error] is
    [Some e] when the answer has an attribute [error] with a true value
    (printed as [e]); [data] is [None] or the list of rows. *)
Record Response : Type := {
  error : option string;
  data : option (list (gmap string value))
}.

(** [not response.data] *)
Definition no_data (response : Response) : bool :=
  match data response with
  | None | Some [] => true
  | Some (_ :: _) => false
  end.

(** The queries the methods build on [self.supabase]. *)
Inductive query : Type :=
| Insert (table : string) (row : gmap string value)
| Update (table : string) (row : gmap string value) (column key : string)
| Select (table : string) (column key : string).

(** [....execute()] *)
Definition executor : Type := query -> result Response.

(** Lines 107-110 and their like: the test of [response.error]. *)
Definition check_error (what : string) (response : Response) : result unit :=
  match error response with
  | Some e => Raise (Exception (what ++ e))
  | None => Ok tt
  end.

(** Lines 112-115 and their like: the test of [response.data]. *)
Definition check_data (response : Response) : result unit :=
  if no_data response
  then Raise (Exception "No data returned from insert operation")
  else Ok tt.

(** [json.dumps(x) if x else "{}"] *)
Definition dumps_or_empty (dumps : json -> string) (x : json) : string :=
  if json_truthy x then dumps x else "{}".

(** [create_research_job] (lines 71-131).  The handler of line 102 logs
    the exception of the insert and goes on, with [response] unassigned;
    the handler of line 124 logs and raises again. *)
Definition create_research_job (execute : executor) (dumps : json -> string)
    (uuid4 utcnow : string) (query_ : string)
    (agent role report_type : option string) (additional_info : json)
    : result string :=
  let additional_info_json := dumps_or_empty dumps additional_info in
  let job_data : gmap string value :=
    list_to_map
      [ ("id", VStr uuid4);
        ("query", VStr query_);
        ("agent", of_option agent);
        ("role", of_option role);
        ("report_type", of_option report_type);
        ("started_at", VStr utcnow);
        ("status", VStr "in_progress");
        ("research_costs", VFloat zero);
        ("visited_urls", VStr (dumps (JList [])));
        ("report", VNone);
        ("additional_info", VStr additional_info_json) ] in
  match execute (Insert "jobs" job_data) with
  | Raise _ => Raise (UnboundLocalError "response")
  | Ok response =>
      _ ← check_error "Error creating job: " response;
      _ ← check_data response;
      Ok uuid4
  end.

(** The dict [page_data] of [insert_scraped_page] (lines 146-154). *)
Definition page_data (dumps : json -> string) (uuid4 utcnow : string)
    (job_id url title content : string) (metadata : json)
    : gmap string value :=
  list_to_map
    [ ("id", VStr uuid4);
      ("job_id", VStr job_id);
      ("url", VStr url);
      ("title", VStr title);
      ("content", VStr content);
      ("metadata", VStr (dumps_or_empty dumps metadata));
      ("scraped_at", VStr utcnow) ].

(** [insert_scraped_page] (lines 133-183); the handler of line 176 logs
    and raises again. *)
Definition insert_scraped_page (execute : executor) (dumps : json -> string)
    (uuid4 utcnow : string) (job_id url title content : string)
    (metadata : json) : result (gmap string value) :=
  let page_data := page_data dumps uuid4 utcnow job_id url title content metadata in
  response ← execute (Insert "pages" page_data);
  _ ← check_error "Error inserting scraped page: " response;
  _ ← check_data response;
  Ok page_data.

(** The dict [update_data] of [update_research_job] (lines 196-209). *)
Definition update_data (dumps : json -> string) (utcnow : string)
    (status : string) (research_costs : option float)
    (visited_urls : option (list string)) (report error_message : option string)
    : gmap string value :=
  let update_data : gmap string value :=
    list_to_map
      [ ("finished_at", VStr utcnow);
        ("status", VStr status);
        ("error_message", of_option error_message) ] in
  let update_data :=
    match research_costs with
    | Some c => <["research_costs" := VFloat c]> update_data
    | None => update_data
    end in
  let update_data :=
    match visited_urls with
    | Some us => <["visited_urls" := VStr (dumps (JList (map JStr us)))]> update_data
    | None => update_data
    end in
  match report with
  | Some r => <["report" := VStr r]> update_data
  | None => update_data
  end.

(** [response.data[0] if response.data else None] *)
Definition first_row (response : Response) : option (gmap string value) :=
  match data response with
  | Some (row :: _) => Some row
  | _ => None
  end.

(** [update_research_job] (lines 185-238). *)
Definition update_research_job (execute : executor) (dumps : json -> string)
    (utcnow : string) (job_id status : string)
    (research_costs : option float) (visited_urls : option (list string))
    (report error_message : option string)
    : result (option (gmap string value)) :=
  let update_data :=
    update_data dumps utcnow status research_costs visited_urls report
                error_message in
  response ← execute (Update "jobs" update_data "id" job_id);
  _ ← check_error "Error updating job: " response;
  Ok (first_row response).

(** [get_research_job] (lines 240-264). *)
Definition get_research_job (execute : executor) (job_id : string)
    : result (option (gmap string value)) :=
  response ← execute (Select "jobs" "id" job_id);
  _ ← check_error "Error retrieving job: " response;
  Ok (first_row response).

(** [get_scraped_pages] (lines 266-288); [len(pages)] in the log line
    raises when [response.data] is [None]. *)
Definition get_scraped_pages (execute : executor) (job_id : string)
    : result (list (gmap string value)) :=
  response ← execute (Select "pages" "job_id" job_id);
  _ ← check_error "Error retrieving scraped pages: " response;
  match data response with
  | Some pages => Ok pages
  | None => Raise (TypeError "object of type 'NoneType' has no len()")
  end.

(** The dict [log_data] of [insert_log] (lines 302-309). *)
Definition log_data (dumps : json -> string) (uuid4 utcnow : string)
    (job_id level message : string) (details : json) : gmap string value :=
  list_to_map
    [ ("id", VStr uuid4);
      ("job_id", VStr job_id);
      ("level", VStr level);
      ("message", VStr message);
      ("details", VStr (dumps_or_empty dumps details));
      ("created_at", VStr utcnow) ].

(** [insert_log] (lines 290-337): the handler of line 331 logs and does
    not raise again, so the method then returns [None]. *)
Definition insert_log (execute : executor) (dumps : json -> string)
    (uuid4 utcnow : string) (job_id level message : string) (details : json)
    : result (option (gmap string value)) :=
  let log_data := log_data dumps uuid4 utcnow job_id level message details in
  try_except
    (response ← execute (Insert "logs" log_data);
     _ ← check_error "Error inserting log: " response;
     _ ← check_data response;
     Ok (Some log_data))
    (fun e => Ok None).

(** The attributes of the one [DatabaseManager] object.  [initialized]
    is its [_initialized], read from the class (false) until line 48
    sets it on the object; an attribute not yet assigned is [None]. *)
Record instance : Type := {
  supabase_url : option string;
  supabase_key : option string;
  supabase : option Client;
  initialized : bool
}.

(** The object [__new__] makes when the class has none. *)
Definition fresh : instance :=
  {| supabase_url := None; supabase_key := None; supabase := None;
     initialized := false |}.

(** [not s] for the value of [os.environ.get]. *)
Definition unset (v : option string) : bool :=
  match v with
  | None => true
  | Some s => String.eqb s ""
  end.

Definition missing_settings : exn :=
  ValueError
    "SUPABASE_URL and SUPABASE_SERVICE_ROLE_KEY environment variables must be set".

(** The call [DatabaseManager()]: [__new__] (lines 19-22) then
    [__init__] (lines 24-52).  [cls_instance] is the class attribute
    [_instance].  The value is what the call returns or raises, the
    class attribute afterwards and the number of calls of
    [create_client]. *)
Definition DatabaseManager (create_client : string -> string -> result Client)
    (env : gmap string string) (cls_instance : option instance)
    : result instance * option instance * nat :=
  let self := default fresh cls_instance in
  if initialized self then (Ok self, Some self, 0)
  else
    let url := env !! "SUPABASE_URL" in
    let key := env !! "SUPABASE_SERVICE_ROLE_KEY" in
    let self := {| supabase_url := url; supabase_key := key;
                   supabase := supabase self;
                   initialized := initialized self |} in
    match url, key with
    | Some u, Some k =>
        if unset url || unset key then (Raise missing_settings, Some self, 0)
        else
          match create_client u k with
          | Ok c =>
              let self := {| supabase_url := url; supabase_key := key;
                             supabase := Some c; initialized := true |} in
              (Ok self, Some self, 1)
          | Raise e => (Raise e, Some self, 1)
          end
    | _, _ => (Raise missing_settings, Some self, 0)
    end.

End Manager.

Arguments VNone {float}.
Arguments VStr {float} s.
Arguments VFloat {float} x.
Arguments of_option {float} o.
Arguments Build_Response {float} error data.
Arguments error {float} r.
Arguments data {float} r.
Arguments no_data {float} response.
Arguments Insert {float} table row.
Arguments Update {float} table row column key.
Arguments Select {float} table column key.
Arguments check_error {float} what response.
Arguments check_data {float} response.
Arguments create_research_job {float} zero execute dumps uuid4 utcnow query_
  agent role report_type additional_info.
Arguments page_data {float} dumps uuid4 utcnow job_id url title content metadata.
Arguments insert_scraped_page {float} execute dumps uuid4 utcnow job_id url
  title content metadata.
Arguments update_data {float} dumps utcnow status research_costs visited_urls
  report error_message.
Arguments first_row {float} response.
Arguments update_research_job {float} execute dumps utcnow job_id status
  research_costs visited_urls report error_message.
Arguments get_research_job {float} execute job_id.
Arguments get_scraped_pages {float} execute job_id.
Arguments log_data {float} dumps uuid4 utcnow job_id level message details.
Arguments insert_log {float} execute dumps uuid4 utcnow job_id level message
  details.
Arguments Build_instance {Client} supabase_url supabase_key supabase initialized.
Arguments supabase_url {Client} i.
Arguments supabase_key {Client} i.
Arguments supabase {Client} i.
Arguments initialized {Client} i.
Arguments fresh {Client}.
Arguments DatabaseManager {Client} create_client env cls_instance.

End Db.

(** ** Variations of a world and of a [Scraper] instance *)

(** The world [w] with another database. *)
Definition with_sink (w : World) (sink : nat -> page -> result unit) : World :=
  {| instantiate := instantiate w;
     has_scrape_async := has_scrape_async w;
     scrape_async := scrape_async w;
     scrape := scrape w;
     insert_scraped_page := sink |}.

(** The world the tasks numbered from [k] on see. *)
Definition shift (k : nat) (w : World) : World :=
  {| instantiate := fun i => instantiate w (k + i);
     has_scrape_async := has_scrape_async w;
     scrape_async := fun i => scrape_async w (k + i);
     scrape := fun i => scrape w (k + i);
     insert_scraped_page := fun i => insert_scraped_page w (k + i) |}.

(** The instance [self] with another job and database. *)
Definition with_job (self : Scraper) (j : option string) (d : bool) : Scraper :=
  {| urls := urls self; scraper := scraper self; job_id := j; db := d |}.

(** The instance [self] with other URLs. *)
Definition with_urls (self : Scraper) (us : list string) : Scraper :=
  {| urls := us; scraper := scraper self; job_id := job_id self; db := db self |}.

(** The keys of [SCRAPER_CLASSES]. *)
Definition registered_keys : list string :=
  ["pdf"; "arxiv"; "bs"; "web_base_loader"; "browser"; "nodriver";
   "tavily_extract"; "firecrawl"].

(** An answer after which the loop of [ScraperAPI.scrape_url] goes on: a
    response that is neither 200 nor 404, or a connection error. *)
Definition goes_on (a : result ScraperAPI.Response) : Prop :=
  (exists r, a = Ok r /\ ScraperAPI.terminal r = false)
  \/ (exists m, a = Raise (ConnectionError m)).

(** The test of [parse_reddit_page] on an element:
    [element.text and element.text.strip() != ""]. *)
Definition kept (element : Soup.Tag) : bool :=
  Normalizer.truthy (Soup.text element)
  && negb (String.eqb (Normalizer.strip (Soup.text element)) "").

(** The block [parse_reddit_page] writes for the comment of rank [n]. *)
Definition comment_block (n : nat) (comment : string) : string :=
  "Comment " ++ Soup.str_of_nat n ++ ":" ++ PyStr.LF ++ comment ++ PyStr.LF.

(** A text made of white space only. *)
Definition all_space (s : string) : bool :=
  forallb Normalizer.is_space (list_ascii_of_string s).

(** ** Sample batches *)

Module Examples.

(** A text of 100 characters. *)
Definition long_text : string :=
  PyStr.join "" (repeat "0123456789" 10).

(** Every strategy is built without error and has only the blocking
    [scrape]; a URL that ends in "/long" yields [long_text], any other
    URL an empty page; the database accepts every page. *)
Definition world : World :=
  {| instantiate := fun _ _ _ => Ok tt;
     has_scrape_async := fun _ => false;
     scrape_async := fun _ _ _ =>
       Raise (OtherError "AttributeError" "scrape_async");
     scrape := fun _ _ link =>
       Ok {| content :=
               PyStr (if PyStr.endswith link "/long" then long_text else "");
             scraped_image_urls := [];
             scraped_title := "Example" |};
     insert_scraped_page := fun _ _ => Ok tt |}.

(** Two URLs with the registered default key "bs". *)
Definition batch : Scraper :=
  {| urls := ["https://example.com/long"; "https://example.com/short"];
     scraper := "bs"; job_id := None; db := false |}.

(** One URL with a default key that [SCRAPER_CLASSES] does not have. *)
Definition unregistered : Scraper :=
  {| urls := ["https://example.com/long"];
     scraper := "scraping_bee"; job_id := None; db := false |}.

(** A network that answers 500, then refuses the connection, then
    answers 200. *)
Definition flaky_network : ScraperAPI.network :=
  fun i _ _ =>
    match i with
    | 0 => Ok {| ScraperAPI.status_code := 500; ScraperAPI.text := "busy" |}
    | 1 => Raise (ConnectionError "refused")
    | _ => Ok {| ScraperAPI.status_code := 200; ScraperAPI.text := "<html/>" |}
    end.

End Examples.

(** * Properties *)

(** ** Facts about the string operations *)

(** stdpp blocks the unfolding of [String.append] by [simpl]; the proofs
    below compute with it. *)
#[local] Arguments String.append !_ _ / : simpl nomatch.

Section StringFacts.

Local Open Scope string_scope.

Lemma app_empty_r (s : string) : s ++ "" = s.
Proof. induction s as [|c s IH]; simpl; [reflexivity | now rewrite IH]. Qed.

Lemma app_assoc_str (a b c : string) : (a ++ b) ++ c = a ++ (b ++ c).
Proof. induction a as [|x a IH]; simpl; [reflexivity | now rewrite IH]. Qed.

(** [String.prefix] is "starts with". *)
Lemma prefix_spec (n h : string) :
  String.prefix n h = true <-> exists q, h = n ++ q.
Proof.
  revert h. induction n as [|a n IH]; intros h; simpl.
  - split; [intros _; now exists h | intros _; now destruct h].
  - destruct h as [|b h].
    + split; [discriminate | intros [q Hq]; discriminate].
    + simpl. destruct (Ascii.ascii_dec a b) as [->|Hab].
      * rewrite IH. split; intros [q Hq]; exists q.
        -- now rewrite Hq.
        -- now injection Hq.
      * split; [discriminate | intros [q Hq]; injection Hq; congruence].
Qed.

Lemma str_in_nil (n : string) :
  PyStr.str_in n "" = String.prefix n "" || false.
Proof. reflexivity. Qed.

Lemma str_in_cons (n : string) (c : ascii) (h : string) :
  PyStr.str_in n (String c h) = String.prefix n (String c h) || PyStr.str_in n h.
Proof. reflexivity. Qed.

(** [needle in hay] holds exactly when [hay] is [p ++ needle ++ q]. *)
Lemma str_in_spec (n h : string) :
  PyStr.str_in n h = true <-> exists p q, h = p ++ n ++ q.
Proof.
  induction h as [|c h IH].
  - rewrite str_in_nil, orb_false_r, prefix_spec. split.
    + intros [q Hq]. now exists "", q.
    + intros [p [q Hq]]. destruct p; [now exists q | discriminate].
  - rewrite str_in_cons, orb_true_iff, prefix_spec, IH. split.
    + intros [[q Hq] | [p [q Hq]]].
      * now exists "", q.
      * exists (String c p), q. simpl. now rewrite Hq.
    + intros [p [q Hq]]. destruct p as [|c' p]; simpl in Hq.
      * left. now exists q.
      * right. exists p, q. now injection Hq.
Qed.

Lemma endswith_nil (suffix : string) :
  PyStr.endswith "" suffix = String.eqb "" suffix || false.
Proof. reflexivity. Qed.

Lemma endswith_cons (c : ascii) (s suffix : string) :
  PyStr.endswith (String c s) suffix
  = String.eqb (String c s) suffix || PyStr.endswith s suffix.
Proof. reflexivity. Qed.

(** [s.endswith(suffix)] holds exactly when [s] is [p ++ suffix]. *)
Lemma endswith_spec (s suffix : string) :
  PyStr.endswith s suffix = true <-> exists p, s = p ++ suffix.
Proof.
  induction s as [|c s IH].
  - rewrite endswith_nil, orb_false_r, String.eqb_eq. split.
    + intros <-. now exists "".
    + intros [p Hp]. destruct p; [assumption | discriminate].
  - rewrite endswith_cons, orb_true_iff, String.eqb_eq, IH. split.
    + intros [<- | [p Hp]]; [now exists "" |].
      exists (String c p). simpl. now rewrite Hp.
    + intros [p Hp]. destruct p as [|c' p]; simpl in Hp.
      * now left.
      * right. exists p. now injection Hp.
Qed.

Lemma str_in_trans (n m h : string) :
  PyStr.str_in n m = true -> PyStr.str_in m h = true -> PyStr.str_in n h = true.
Proof.
  rewrite !str_in_spec. intros [p [q ->]] [p' [q' ->]].
  exists (p' ++ p), (q ++ q'). now rewrite !app_assoc_str.
Qed.

Lemma after_scheme_suffix (s r : string) :
  Spec.after_scheme s = Some r -> exists p, s = p ++ r.
Proof.
  revert r. induction s as [|c s IH]; intros r; [discriminate|].
  change (Spec.after_scheme (String c s))
    with (if String.prefix "://" (String c s)
          then Some (Spec.drop3 (String c s)) else Spec.after_scheme s).
  destruct (String.prefix "://" (String c s)) eqn:Hp.
  - intros [= <-]. apply prefix_spec in Hp as [q Hq].
    exists "://". simpl in Hq. injection Hq as -> ->. reflexivity.
  - intros H. destruct (IH _ H) as [p Hp']. exists (String c p). simpl.
    now rewrite <- Hp'.
Qed.

Lemma until_delimiter_prefix (s : string) :
  exists q, s = Spec.until_delimiter s ++ q.
Proof.
  induction s as [|c s [q Hq]]; simpl.
  - now exists "".
  - destruct (Spec.ends_host c).
    + now exists (String c s).
    + exists q. simpl. now rewrite <- Hq.
Qed.

(** The host of a URL is a piece of its text. *)
Lemma host_in_link (link : string) :
  PyStr.str_in (Spec.host link) link = true.
Proof.
  apply str_in_spec. unfold Spec.host.
  destruct (Spec.after_scheme link) as [r|] eqn:Hr; simpl.
  - destruct (after_scheme_suffix _ _ Hr) as [p Hp].
    destruct (until_delimiter_prefix r) as [q Hq].
    exists p, q. now rewrite <- Hq.
  - destruct (until_delimiter_prefix link) as [q Hq]. now exists "", q.
Qed.

End StringFacts.

(** ** Strategy selection ([Scraper.get_scraper]) *)

Section Selection.

Local Open Scope string_scope.

Lemma pdf_registered : SCRAPER_CLASSES !! "pdf" = Some PyMuPDFScraper.
Proof. reflexivity. Qed.

Lemma arxiv_registered : SCRAPER_CLASSES !! "arxiv" = Some ArxivScraper.
Proof. reflexivity. Qed.

Lemma get_scraper_pdf (self : Scraper) (link : string) :
  PyStr.endswith link ".pdf" = true ->
  get_scraper self link = Ok PyMuPDFScraper.
Proof.
  intros H. unfold get_scraper, scraper_key. rewrite H.
  now rewrite pdf_registered.
Qed.

Lemma get_scraper_arxiv (self : Scraper) (link : string) :
  PyStr.endswith link ".pdf" = false ->
  PyStr.str_in "arxiv.org" link = true ->
  get_scraper self link = Ok ArxivScraper.
Proof.
  intros H1 H2. unfold get_scraper, scraper_key. rewrite H1, H2.
  now rewrite arxiv_registered.
Qed.

Lemma get_scraper_default (self : Scraper) (link : string) :
  PyStr.endswith link ".pdf" = false ->
  PyStr.str_in "arxiv.org" link = false ->
  scraper_key self link = scraper self /\
  get_scraper self link =
    match SCRAPER_CLASSES !! scraper self with
    | Some scraper_class => Ok scraper_class
    | None => Raise (Exception "Scraper not found.")
    end.
Proof.
  intros H1 H2. unfold get_scraper, scraper_key. now rewrite H1, H2.
Qed.

(** C4.  Selection is a function of the URL and the configured default
    key, defined on every URL, and the first matching rule decides:
    a URL that ends in ".pdf" gets the pdf strategy whatever the
    default is; otherwise a URL that contains "arxiv.org" gets the arxiv
    strategy; otherwise the default key is looked up in the registry
    (and the look-up raises "Scraper not found." when the key is not
    registered). *)
Theorem selection_first_match_wins (self : Scraper) (link : string) :
  ((exists p, link = p ++ ".pdf") ->
     scraper_key self link = "pdf" /\
     get_scraper self link = Ok PyMuPDFScraper) /\
  (~ (exists p, link = p ++ ".pdf") ->
   (exists p q, link = p ++ "arxiv.org" ++ q) ->
     scraper_key self link = "arxiv" /\
     get_scraper self link = Ok ArxivScraper) /\
  (~ (exists p, link = p ++ ".pdf") ->
   ~ (exists p q, link = p ++ "arxiv.org" ++ q) ->
     scraper_key self link = scraper self /\
     get_scraper self link =
       match SCRAPER_CLASSES !! scraper self with
       | Some scraper_class => Ok scraper_class
       | None => Raise (Exception "Scraper not found.")
       end) /\
  (scraper_key self link = "pdf" \/ scraper_key self link = "arxiv"
   \/ scraper_key self link = scraper self) /\
  (returns (get_scraper self link)
   \/ get_scraper self link = Raise (Exception "Scraper not found.")).
Proof.
  rewrite <- endswith_spec, <- str_in_spec.
  destruct (PyStr.endswith link ".pdf") eqn:Hpdf;
    [| destruct (PyStr.str_in "arxiv.org" link) eqn:Harxiv].
  - pose proof (get_scraper_pdf self link Hpdf) as Hg.
    assert (Hk : scraper_key self link = "pdf")
      by (unfold scraper_key; now rewrite Hpdf).
    repeat split; try congruence; auto.
    left. now exists PyMuPDFScraper.
  - pose proof (get_scraper_arxiv self link Hpdf Harxiv) as Hg.
    assert (Hk : scraper_key self link = "arxiv")
      by (unfold scraper_key; now rewrite Hpdf, Harxiv).
    repeat split; try congruence; auto.
    left. now exists ArxivScraper.
  - destruct (get_scraper_default self link Hpdf Harxiv) as [Hk Hg].
    repeat split; try congruence; auto.
    rewrite Hg. destruct (SCRAPER_CLASSES !! scraper self) as [c|].
    + left. now exists c.
    + now right.
Qed.

(** C3, as the code has it.  A URL whose host contains "arxiv.org" gets
    the arxiv strategy when it does not end in ".pdf", and the pdf
    strategy when it does. *)
Theorem arxiv_host_selection (self : Scraper) (link : string) :
  PyStr.str_in "arxiv.org" (Spec.host link) = true ->
  get_scraper self link =
    Ok (if PyStr.endswith link ".pdf" then PyMuPDFScraper else ArxivScraper).
Proof.
  intros Hhost.
  assert (Hlink : PyStr.str_in "arxiv.org" link = true)
    by (eapply str_in_trans; [exact Hhost | apply host_in_link]).
  destruct (PyStr.endswith link ".pdf") eqn:Hpdf.
  - now apply get_scraper_pdf.
  - now apply get_scraper_arxiv.
Qed.

Lemma arxiv_host_selection_witness :
  PyStr.str_in "arxiv.org" (Spec.host "https://arxiv.org/abs/2301.00001") = true /\
  get_scraper {| urls := []; scraper := "bs"; job_id := None; db := false |}
              "https://arxiv.org/abs/2301.00001"
  = Ok ArxivScraper.
Proof.
  split; [reflexivity |].
  exact (arxiv_host_selection
           {| urls := []; scraper := "bs"; job_id := None; db := false |}
           "https://arxiv.org/abs/2301.00001" eq_refl).
Defined.

(** C3, as stated, fails: the host of this URL contains "arxiv.org", the
    URL ends in ".pdf", and the pdf strategy is selected. *)
Lemma arxiv_pdf_link_gets_pdf_strategy :
  PyStr.str_in "arxiv.org" (Spec.host "https://arxiv.org/pdf/2301.00001.pdf") = true /\
  get_scraper {| urls := []; scraper := "bs"; job_id := None; db := false |}
              "https://arxiv.org/pdf/2301.00001.pdf"
  = Ok PyMuPDFScraper /\
  get_scraper {| urls := []; scraper := "bs"; job_id := None; db := false |}
              "https://arxiv.org/pdf/2301.00001.pdf"
  <> Ok ArxivScraper.
Proof. split; [reflexivity | split; [reflexivity | discriminate]]. Qed.

End Selection.

(** ** The per-URL task ([Scraper.extract_data_from_url]) *)

Section Task.

Variable w : World.
Variable self : Scraper.

(** A [try] whose handler returns never raises. *)
Lemma try_except_returns {A} (body : result A) (h : exn -> A) :
  returns (try_except body (fun e => Ok (h e))).
Proof. destruct body as [a|e]; simpl; [now exists a | now exists (h e)]. Qed.

Lemma extract_returns (i : nat) (link : string) :
  returns (extract_data_from_url w self i link).
Proof. apply (try_except_returns _ (fun _ => failed_run link)). Qed.

Lemma extract_failed (i : nat) (link : string) (e : exn) :
  try_body w self i link = Raise e ->
  extract_data_from_url w self i link = Ok (failed_run link).
Proof. intros H. unfold extract_data_from_url. now rewrite H. Qed.

(** The three ways in which a task ends. *)
Lemma extract_cases (i : nat) (link : string) :
  (exists e, try_body w self i link = Raise e /\
     extract_data_from_url w self i link = Ok (failed_run link))
  \/ (exists C r s, call_strategy w self i link = Ok (C, r) /\
        content r = PyStr s /\ (PyStr.len s < 100)%Z /\
        exists t, extract_data_from_url w self i link = Ok t /\
          status t = Rejected /\
          record t = {| url := link; raw_content := PyNone;
                        image_urls := []; title := scraped_title r |})
  \/ (exists C r s, call_strategy w self i link = Ok (C, r) /\
        content r = PyStr s /\ (100 <= PyStr.len s)%Z /\
        exists t, extract_data_from_url w self i link = Ok t /\
          status t = Accepted /\
          record t = {| url := link; raw_content := PyStr s;
                        image_urls := scraped_image_urls r;
                        title := scraped_title r |}).
Proof.
  destruct (try_body w self i link) as [t|e] eqn:Hbody.
  2:{ left. exists e. split; [reflexivity | now apply (extract_failed i link e)]. }
  right. unfold extract_data_from_url. rewrite Hbody. simpl.
  unfold try_body in Hbody.
  destruct (call_strategy w self i link) as [[C r]|e']; [|discriminate].
  simpl in Hbody.
  destruct (content r) as [|s] eqn:Hc; simpl in Hbody; [discriminate|].
  destruct (PyStr.len s <? 100)%Z eqn:Hlen.
  - apply Z.ltb_lt in Hlen. injection Hbody as <-.
    left. exists C, r, s. repeat split; try assumption.
    eexists. repeat split.
  - apply Z.ltb_ge in Hlen. right. exists C, r, s.
    repeat split; try assumption.
    destruct (job_id_truthy (job_id self) && db self);
      [destruct (insert_scraped_page w i _) |];
      simpl in Hbody; injection Hbody as <-; eexists; repeat split.
Qed.

Lemma extract_url (i : nat) (link : string) (t : task_run) :
  extract_data_from_url w self i link = Ok t -> url (record t) = link.
Proof.
  intros Ht.
  destruct (extract_cases i link)
    as [[e [_ H]] | [(C & r & s & _ & _ & _ & t' & H & _ & Hr)
                    | (C & r & s & _ & _ & _ & t' & H & _ & Hr)]];
    rewrite H in Ht; injection Ht as <-; [reflexivity | | ]; now rewrite Hr.
Qed.

End Task.

Section Batch.

Variable w : World.
Variable self : Scraper.

(** C2.  Every task ends with a record, and on that record: the label
    Accepted comes with a text of at least 100 characters; any other
    label (Rejected, Failed) comes with [None]; a text is present only
    under the label Accepted; and when the strategy hands back a text of
    fewer than 100 characters the record is Rejected, its content [None]
    and its image list empty. *)
Theorem outcome_invariant (i : nat) (link : string) :
  exists t, extract_data_from_url w self i link = Ok t /\
    (status t = Accepted ->
       exists s, raw_content (record t) = PyStr s /\ (100 <= PyStr.len s)%Z) /\
    (status t = Rejected \/ status t = Failed ->
       raw_content (record t) = PyNone) /\
    (forall s, raw_content (record t) = PyStr s ->
       status t = Accepted /\ (100 <= PyStr.len s)%Z) /\
    (forall C r s, call_strategy w self i link = Ok (C, r) ->
       content r = PyStr s -> (PyStr.len s < 100)%Z ->
       status t = Rejected /\ raw_content (record t) = PyNone /\
       image_urls (record t) = [] /\ title (record t) = scraped_title r).
Proof.
  destruct (extract_cases w self i link)
    as [[e [Hb H]] | [(C & r & s & Hs & Hc & Hl & t & H & Hst & Hr)
                     | (C & r & s & Hs & Hc & Hl & t & H & Hst & Hr)]].
  - exists (failed_run link). split; [exact H|]. simpl.
    split; [discriminate|]. split; [reflexivity|]. split; [discriminate|].
    intros C r s Hs Hc Hl. exfalso.
    unfold try_body in Hb. rewrite Hs in Hb. simpl in Hb.
    rewrite Hc in Hb. simpl in Hb.
    apply Z.ltb_lt in Hl. rewrite Hl in Hb. discriminate.
  - exists t. split; [exact H|]. rewrite Hst, Hr. simpl.
    split; [discriminate|]. split; [reflexivity|]. split; [discriminate|].
    intros C' r' s' Hs'. rewrite Hs in Hs'. injection Hs' as _ <-.
    intros _ _. repeat split.
  - exists t. split; [exact H|]. rewrite Hst, Hr. simpl.
    split; [intros _; now exists s|].
    split; [intros [?|?]; discriminate|].
    split; [intros s' [= <-]; now split|].
    intros C' r' s' Hs'. rewrite Hs in Hs'. injection Hs' as _ <-.
    rewrite Hc. intros [= <-]. lia.
Qed.

(** [asyncio.gather] over tasks that all return: one result per task,
    at the position of its task. *)
Lemma gather_imap {A B} (f : nat -> A -> result B) (l : list A) :
  (forall i x, returns (f i x)) ->
  exists ys, gather (imap f l) = Ok ys /\
    length ys = length l /\
    forall i x, l !! i = Some x -> exists y, f i x = Ok y /\ ys !! i = Some y.
Proof.
  revert f. induction l as [|a l IH]; intros f Hf.
  - exists []. repeat split. intros i x Hx. discriminate.
  - destruct (Hf 0 a) as [y Hy].
    destruct (IH (fun i => f (S i))) as (ys & Hg & Hlen & Hnth).
    { intros i x. apply Hf. }
    exists (y :: ys). simpl. rewrite Hy. simpl.
    unfold compose. rewrite Hg. simpl.
    split; [reflexivity|]. split; [now rewrite Hlen|].
    intros [|i] x Hx; simpl in Hx.
    + injection Hx as <-. now exists y.
    + now apply Hnth.
Qed.

(** The records collected by line 60, before line 64 filters them. *)
Lemma gather_tasks :
  exists contents, gather (tasks w self) = Ok contents /\
    length contents = length (urls self) /\
    (forall i link, urls self !! i = Some link ->
       exists t, extract_data_from_url w self i link = Ok t /\
                 contents !! i = Some t) /\
    map (fun t => url (record t)) contents = urls self.
Proof.
  destruct (gather_imap (extract_data_from_url w self) (urls self))
    as (contents & Hg & Hlen & Hnth).
  { intros i x. apply extract_returns. }
  exists contents. repeat split; try assumption.
  apply list_eq. intros i. rewrite list_lookup_fmap.
  destruct (urls self !! i) as [link|] eqn:Hi.
  - destruct (Hnth i link Hi) as (t & Ht & ->). simpl.
    f_equal. now apply (extract_url w self i).
  - apply lookup_ge_None in Hi. rewrite <- Hlen in Hi.
    apply lookup_ge_None in Hi. now rewrite Hi.
Qed.

(** C5.  Whatever is raised inside the [try] of a task (by the
    selection of the strategy, its construction, its call or the length
    test) ends in the record of line 170: content [None], no images,
    empty title.  The task itself never raises, an unregistered
    strategy key is one such case, and in the gathered batch every URL
    has the record of its own task at its own position. *)
Theorem task_failure_contained :
  (forall i link, returns (extract_data_from_url w self i link)) /\
  (forall i link e, try_body w self i link = Raise e ->
     extract_data_from_url w self i link
     = Ok {| status := Failed;
             record := {| url := link; raw_content := PyNone;
                          image_urls := []; title := "" |};
             db_calls := [] |}) /\
  (forall i link, SCRAPER_CLASSES !! scraper_key self link = None ->
     get_scraper self link = Raise (Exception "Scraper not found.") /\
     extract_data_from_url w self i link
     = Ok {| status := Failed;
             record := {| url := link; raw_content := PyNone;
                          image_urls := []; title := "" |};
             db_calls := [] |}) /\
  (exists contents, gather (tasks w self) = Ok contents /\
     length contents = length (urls self) /\
     forall i link, urls self !! i = Some link ->
       exists t, extract_data_from_url w self i link = Ok t /\
                 contents !! i = Some t).
Proof.
  split; [apply extract_returns|].
  split; [intros i link e; apply extract_failed|].
  split.
  - intros i link Hkey.
    assert (Hg : get_scraper self link = Raise (Exception "Scraper not found."))
      by (unfold get_scraper; now rewrite Hkey).
    split; [exact Hg|].
    apply (extract_failed w self i link (Exception "Scraper not found.")).
    unfold try_body, call_strategy. now rewrite Hg.
  - destruct gather_tasks as (contents & Hg & Hlen & Hnth & _).
    now exists contents.
Qed.

(** C1, as the code has it.  The gather step collects one record per
    submitted URL, in the order of submission, and no task raises;
    [run] then keeps, in that order, exactly the records whose content
    is not [None].  So [run] returns at most N records, their URLs are
    a subsequence of the submitted ones, and each has a text of at
    least 100 characters; rejected and failed URLs are left out. *)
Theorem run_returns_accepted_in_order :
  exists contents res,
    gather (tasks w self) = Ok contents /\
    map (fun t => url (record t)) contents = urls self /\
    run w self = Ok res /\
    res = filter (fun c => is_not_None (raw_content c)) (map record contents) /\
    length res <= length (urls self) /\
    sublist (map url res) (urls self) /\
    Forall (fun c => exists s, raw_content c = PyStr s /\ (100 <= PyStr.len s)%Z)
           res.
Proof.
  destruct gather_tasks as (contents & Hg & Hlen & Hnth & Hurls).
  exists contents. eexists. split; [exact Hg|]. split; [exact Hurls|].
  split; [unfold run; rewrite Hg; reflexivity|].
  split; [reflexivity|].
  split; [|split].
  - etransitivity; [apply length_filter|].
    now rewrite length_map, Hlen.
  - rewrite <- Hurls.
    replace (map (fun t => url (record t)) contents)
      with (map url (map record contents)) by now rewrite map_map.
    apply (fmap_sublist url), sublist_filter.
  - apply Forall_forall. intros c Hc.
    apply list_elem_of_filter in Hc as [Hpresent Hin].
    apply list_elem_of_fmap in Hin as (t & -> & Hin).
    apply list_elem_of_lookup in Hin as [i Hi].
    assert (Hlt : i < length (urls self))
      by (rewrite <- Hlen; now apply lookup_lt_Some in Hi).
    apply lookup_lt_is_Some in Hlt as [link Hlink].
    destruct (Hnth i link Hlink) as (t' & Ht' & Hi').
    rewrite Hi in Hi'. injection Hi' as <-.
    destruct (raw_content (record t)) as [|s] eqn:Hs; [contradiction|].
    exists s. split; [reflexivity|].
    destruct (extract_cases w self i link)
      as [[e [_ H]] | [(C & r & s' & _ & _ & _ & t'' & H & _ & Hr)
                      | (C & r & s' & _ & _ & Hl & t'' & H & _ & Hr)]];
      rewrite Ht' in H; injection H as H; subst.
    + discriminate Hs.
    + rewrite Hr in Hs. discriminate Hs.
    + rewrite Hr in Hs. injection Hs as <-. exact Hl.
Qed.

End Batch.

(** C1, as stated, fails.  Of the two URLs of [Examples.batch] the second
    has an empty page and is left out of what [run] returns; the one URL
    of [Examples.unregistered] fails (no strategy under its key) and
    [run] returns no record for it. *)
Lemma run_leaves_out_rejected_and_failed :
  run Examples.world Examples.batch
  = Ok [ {| url := "https://example.com/long";
            raw_content := PyStr Examples.long_text;
            image_urls := []; title := "Example" |} ] /\
  length (urls Examples.batch) = 2 /\
  run Examples.world Examples.unregistered = Ok [] /\
  length (urls Examples.unregistered) = 1.
Proof. split; [reflexivity | split; [reflexivity | split; reflexivity]]. Qed.

(** The task of that URL, on its own: the look-up of "scraping_bee" raises
    and the handler of line 168 builds the record. *)
Example unregistered_key_fails :
  get_scraper Examples.unregistered "https://example.com/long"
  = Raise (Exception "Scraper not found.") /\
  extract_data_from_url Examples.world Examples.unregistered 0
                        "https://example.com/long"
  = Ok {| status := Failed;
          record := {| url := "https://example.com/long"; raw_content := PyNone;
                       image_urls := []; title := "" |};
          db_calls := [] |}.
Proof. split; reflexivity. Qed.

(** ** Bounded retry ([ScraperAPI.scrape_url]) *)

Module ScraperAPIFacts.
Import ScraperAPI.

(** Whatever the loop starts from, it leaves [response] bound once it
    has run a round. *)
Lemma retry_loop_binds (get : nat -> result Response) (n i : nat)
    (response : local) :
  (0 < n \/ response <> Unbound) ->
  forall l, fst (retry_loop get n i response) = Ok l -> l <> Unbound.
Proof.
  revert i response. induction n as [|n IH]; intros i response Hn l.
  - simpl. intros [= <-]. destruct Hn as [Hn|Hn]; [lia | exact Hn].
  - simpl. destruct (get i) as [r|e].
    + destruct (terminal r).
      * simpl. intros [= <-]. discriminate.
      * specialize (IH (S i) (Bound (Some r))).
        destruct (retry_loop get n (S i) (Bound (Some r))) as [res answers].
        simpl in *. apply IH. right. discriminate.
    + destruct e; try (simpl; discriminate).
      specialize (IH (S i) (Bound None)).
      destruct (retry_loop get n (S i) (Bound None)) as [res answers].
      simpl in *. apply IH. right. discriminate.
Qed.

(** The loop raises only what [requests.get] raised and the handler of
    line 41 did not catch. *)
Lemma retry_loop_raise (get : nat -> result Response) (n i : nat)
    (response : local) (e : exn) :
  fst (retry_loop get n i response) = Raise e ->
  exists j, get j = Raise e /\ forall m, e <> ConnectionError m.
Proof.
  revert i response. induction n as [|n IH]; intros i response.
  - simpl. discriminate.
  - simpl. destruct (get i) as [r|e'] eqn:Hget.
    + destruct (terminal r); [simpl; discriminate|].
      specialize (IH (S i) (Bound (Some r))).
      destruct (retry_loop get n (S i) (Bound (Some r))) as [res answers].
      exact IH.
    + destruct e';
        try (simpl; intros [= <-]; exists i; split;
             [exact Hget | intros m; discriminate]).
      specialize (IH (S i) (Bound None)).
      destruct (retry_loop get n (S i) (Bound None)) as [res answers].
      exact IH.
Qed.

(** Only connection errors: every round is used and [response] ends as
    [None]. *)
Lemma retry_loop_connection_errors (get : nat -> result Response) (n i : nat)
    (response : local) :
  0 < n ->
  (forall j, i <= j < i + n -> exists m, get j = Raise (ConnectionError m)) ->
  fst (retry_loop get n i response) = Ok (Bound None) /\
  length (snd (retry_loop get n i response)) = n.
Proof.
  revert i response. induction n as [|n IH]; intros i response Hn Hget; [lia|].
  simpl. destruct (Hget i) as [m Hm]; [lia|]. rewrite Hm.
  destruct n as [|n].
  - simpl. split; reflexivity.
  - destruct (IH (S i) (Bound None)) as [H1 H2]; [lia | |].
    { intros j Hj. apply Hget. lia. }
    destruct (retry_loop get (S n) (S i) (Bound None)) as [res answers].
    simpl in *. split; [exact H1 | now rewrite H2].
Qed.

Lemma scrape_url_unfold (net : network) (self : t) (url : string) :
  scrape_url net self url
  = (response ← fst (retry_loop (fun i => net i endpoint (params self url))
                                (Z.to_nat (num_retries self)) 0 Unbound);
     after_loop response,
     snd (retry_loop (fun i => net i endpoint (params self url))
                     (Z.to_nat (num_retries self)) 0 Unbound)).
Proof.
  unfold scrape_url.
  now destruct (retry_loop _ _ _ _) as [res answers].
Qed.

Lemma after_loop_returns (l : local) : l <> Unbound -> returns (after_loop l).
Proof.
  destruct l as [|[r|]]; [congruence | |]; intros _; simpl.
  - destruct (ok r && (status_code r =? 200)%Z); eexists; reflexivity.
  - now exists "".
Qed.

(** With at least one retry, a run of connection errors on every
    attempt ends in the empty string. *)
Lemma connection_errors_give_empty (net : network) (self : t) (url : string) :
  (1 <= num_retries self)%Z ->
  (forall j, (Z.of_nat j < num_retries self)%Z ->
     exists m, net j endpoint (params self url) = Raise (ConnectionError m)) ->
  fst (scrape_url net self url) = Ok "" /\
  Z.of_nat (length (snd (scrape_url net self url))) = num_retries self.
Proof.
  intros Hn Hnet. rewrite scrape_url_unfold. simpl.
  destruct (retry_loop_connection_errors
              (fun i => net i endpoint (params self url))
              (Z.to_nat (num_retries self)) 0 Unbound) as [H1 H2]; [lia | |].
  { intros j Hj. apply Hnet. lia. }
  rewrite H1, H2. simpl. split; [reflexivity | lia].
Qed.

Example flaky_network_third_attempt :
  scrape_url Examples.flaky_network
             {| api_key := "key"; num_retries := 5 |} "https://example.com/"
  = (Ok "<html/>",
     [ Ok {| status_code := 500; text := "busy" |};
       Raise (ConnectionError "refused");
       Ok {| status_code := 200; text := "<html/>" |} ]).
Proof. reflexivity. Qed.

Example flaky_network_two_attempts :
  scrape_url Examples.flaky_network
             {| api_key := "key"; num_retries := 2 |} "https://example.com/"
  = (Ok "",
     [ Ok {| status_code := 500; text := "busy" |};
       Raise (ConnectionError "refused") ]).
Proof. reflexivity. Qed.

Example other_errors_leave_scrape_url :
  scrape_url (fun _ _ _ => Raise (OtherError "TooManyRedirects" ""))
             {| api_key := "key"; num_retries := 5 |} "https://example.com/"
  = (Raise (OtherError "TooManyRedirects" ""),
     [Raise (OtherError "TooManyRedirects" "")]).
Proof. reflexivity. Qed.

(** C7 at [num_retries = 0].  No request is made, so it is true that
    every attempt (there is none) ended in a connection error; [response]
    was never assigned and line 44 raises. *)
Lemma zero_retries_raise_unbound_local :
  scrape_url (fun _ _ _ => Raise (ConnectionError "refused"))
             {| api_key := "key"; num_retries := 0 |} "https://example.com/"
  = (Raise (UnboundLocalError "response"), []).
Proof. reflexivity. Qed.

(** C8.  When the first answer received is a response with status 404,
    it is the only request made and the empty string is returned. *)
Theorem first_404_is_terminal (net : network) (self : t) (url : string)
    (r : Response) :
  snd (scrape_url net self url) !! 0 = Some (Ok r) ->
  status_code r = 404%Z ->
  scrape_url net self url = (Ok "", [Ok r]).
Proof.
  rewrite scrape_url_unfold. simpl.
  destruct (Z.to_nat (num_retries self)) as [|n]; [discriminate|].
  simpl. destruct (net 0 endpoint (params self url)) as [r'|e] eqn:Hnet.
  - destruct (terminal r') eqn:Hterm.
    + simpl. intros [= ->] H404. unfold ok. rewrite H404. reflexivity.
    + destruct (retry_loop _ n 1 _) as [res answers]. simpl.
      intros [= ->] H404. unfold terminal in Hterm. rewrite H404 in Hterm.
      discriminate.
  - destruct e; try (simpl; discriminate).
    destruct (retry_loop _ n 1 _) as [res answers]. simpl. discriminate.
Qed.

Lemma first_404_is_terminal_witness :
  scrape_url (fun _ _ _ => Ok {| status_code := 404; text := "Not Found" |})
             {| api_key := "key"; num_retries := 5 |} "https://example.com/"
  = (Ok "", [Ok {| status_code := 404; text := "Not Found" |}]).
Proof.
  exact (first_404_is_terminal
           (fun _ _ _ => Ok {| status_code := 404; text := "Not Found" |})
           {| api_key := "key"; num_retries := 5 |} "https://example.com/"
           {| status_code := 404; text := "Not Found" |} eq_refl eq_refl).
Defined.

(** C10.  With [num_retries] below 1 no request is made and
    [scrape_url] raises [UnboundLocalError] for the local [response],
    whatever the network would answer.  With [num_retries] at least 1,
    [scrape_url] raises only what [requests.get] raised other than a
    connection error; so when [requests.get] raises nothing but
    connection errors a string is returned. *)
Theorem scrape_url_needs_one_retry (net : network) (self : t) (url : string) :
  ((num_retries self < 1)%Z ->
     scrape_url net self url = (Raise (UnboundLocalError "response"), [])) /\
  ((1 <= num_retries self)%Z ->
     (forall e, fst (scrape_url net self url) = Raise e ->
        exists j, net j endpoint (params self url) = Raise e /\
                  forall m, e <> ConnectionError m) /\
     ((forall j e, net j endpoint (params self url) = Raise e ->
         exists m, e = ConnectionError m) ->
      returns (fst (scrape_url net self url)))).
Proof.
  split.
  - intros Hn. rewrite scrape_url_unfold.
    replace (Z.to_nat (num_retries self)) with 0 by lia. reflexivity.
  - intros Hn. rewrite scrape_url_unfold. simpl.
    set (get := fun i => net i endpoint (params self url)).
    pose proof (retry_loop_binds get (Z.to_nat (num_retries self)) 0 Unbound)
      as Hbound.
    pose proof (retry_loop_raise get (Z.to_nat (num_retries self)) 0 Unbound)
      as Hraise.
    destruct (fst (retry_loop get (Z.to_nat (num_retries self)) 0 Unbound))
      as [l|e0]; simpl.
    + assert (Hl : l <> Unbound) by (apply Hbound; [left; lia | reflexivity]).
      destruct (after_loop_returns l Hl) as [s Hs]. rewrite Hs.
      split; [discriminate | intros _; now exists s].
    + split.
      * intros e [= <-]. now apply Hraise.
      * intros Hnet. destruct (Hraise e0 eq_refl) as (j & Hj & Hne).
        destruct (Hnet j e0 Hj) as [m ->]. now destruct (Hne m).
Qed.

End ScraperAPIFacts.

(** ** The premium-proxy flag of the two adapters *)

Module AdapterFacts.
Import Adapter.

Lemma premium_proxy_flag_spec (link : string) :
  premium_proxy_flag link = true <->
  exists domain, In domain PREMIUM_PROXY_DOMAINS /\
                 exists p q, link = (p ++ domain ++ q)%string.
Proof.
  unfold premium_proxy_flag.
  destruct (existsb _ _) eqn:Hex.
  - apply existsb_exists in Hex as (domain & Hin & Hsub).
    apply str_in_spec in Hsub. split; [intros _; now exists domain | reflexivity].
  - split; [discriminate|]. intros (domain & Hin & Hsub).
    apply str_in_spec in Hsub.
    assert (Hex' : existsb (fun d => PyStr.str_in d link) PREMIUM_PROXY_DOMAINS = true)
      by (apply existsb_exists; now exists domain).
    congruence.
Qed.

Lemma premium_host_flag (link : string) :
  In (Spec.host link) PREMIUM_PROXY_DOMAINS -> premium_proxy_flag link = true.
Proof.
  intros Hin. apply premium_proxy_flag_spec. exists (Spec.host link).
  split; [exact Hin|]. apply str_in_spec, host_in_link.
Qed.

(** C6, as the code has it.  Each adapter hands exactly one request to
    its client, and on it [premium_proxy] is true exactly when the text
    of the URL contains one of the four premium domains.  So a URL
    whose host is one of them carries [premium_proxy = true], and a URL
    that contains none of them carries [premium_proxy = false]. *)
Theorem premium_proxy_by_substring (link : string) :
  (forall get read,
     snd (ScrapingBeeScraper.scrape get read link)
     = [ScrapingBeeScraper.request_for link]) /\
  (forall get read,
     snd (ZenRowsScraper.scrape get read link)
     = [ZenRowsScraper.request_for link]) /\
  ScrapingBeeScraper.premium_proxy (ScrapingBeeScraper.request_for link)
    = premium_proxy_flag link /\
  ZenRowsScraper.premium_proxy (ZenRowsScraper.request_for link)
    = premium_proxy_flag link /\
  (premium_proxy_flag link = true <->
     exists domain, In domain PREMIUM_PROXY_DOMAINS /\
                    exists p q, link = (p ++ domain ++ q)%string) /\
  (In (Spec.host link) PREMIUM_PROXY_DOMAINS -> premium_proxy_flag link = true) /\
  ((forall domain, In domain PREMIUM_PROXY_DOMAINS ->
      ~ exists p q, link = (p ++ domain ++ q)%string) ->
   premium_proxy_flag link = false).
Proof.
  split; [reflexivity|]. split; [reflexivity|].
  split; [reflexivity|]. split; [reflexivity|].
  split; [apply premium_proxy_flag_spec|].
  split; [apply premium_host_flag|].
  intros Hnone. destruct (premium_proxy_flag link) eqn:Hflag; [|reflexivity].
  apply premium_proxy_flag_spec in Hflag as (domain & Hin & Hsub).
  now destruct (Hnone domain Hin).
Qed.

(** C6, as stated, fails.  The host of this URL is example.com, which
    is not a premium domain, and both adapters send
    [premium_proxy = true] because the query string mentions
    reddit.com. *)
Lemma plain_host_gets_premium_proxy :
  Spec.host "https://example.com/?next=reddit.com" = "example.com" /\
  ~ In "example.com" PREMIUM_PROXY_DOMAINS /\
  map ScrapingBeeScraper.premium_proxy
      (snd (ScrapingBeeScraper.scrape
              (fun _ => Raise (ConnectionError "offline"))
              (fun _ => Ok "")
              "https://example.com/?next=reddit.com")) = [true] /\
  map ZenRowsScraper.premium_proxy
      (snd (ZenRowsScraper.scrape
              (fun _ => Raise (ConnectionError "offline"))
              (fun _ => Ok "")
              "https://example.com/?next=reddit.com")) = [true].
Proof.
  split; [reflexivity|]. split; [|split; reflexivity].
  simpl. intros [H|[H|[H|[H|[]]]]]; discriminate.
Qed.

End AdapterFacts.

(** ** The text clean-up of the adapters *)

Module NormalizerFacts.
Import Normalizer Spec.

Local Open Scope string_scope.

Lemma no_linebreak_cons (c : ascii) (l : string) :
  Spec.no_linebreak (String c l) = negb (is_linebreak c) && Spec.no_linebreak l.
Proof. reflexivity. Qed.

Lemma is_linebreak_LF : is_linebreak "010" = true.
Proof. reflexivity. Qed.

Lemma is_cr_LF : is_cr "010" = false.
Proof. reflexivity. Qed.

(** A line feed after a text without line breaks ends the first line. *)
Lemma splitlines_app_LF (l rest : string) :
  Spec.no_linebreak l = true ->
  splitlines (l ++ PyStr.LF ++ rest) = l :: splitlines rest.
Proof.
  induction l as [|c l IH]; intros Hl.
  - change ("" ++ PyStr.LF ++ rest) with (String "010" rest).
    unfold splitlines; fold splitlines.
    rewrite is_linebreak_LF, is_cr_LF. simpl. now destruct rest.
  - rewrite no_linebreak_cons in Hl. apply andb_true_iff in Hl as [Hc Hl].
    apply negb_true_iff in Hc.
    change (String c l ++ PyStr.LF ++ rest)
      with (String c (l ++ PyStr.LF ++ rest)).
    unfold splitlines; fold splitlines. rewrite Hc, (IH Hl). reflexivity.
Qed.

Lemma splitlines_one_line (l : string) :
  l <> "" -> Spec.no_linebreak l = true -> splitlines l = [l].
Proof.
  induction l as [|c l IH]; intros Hne Hl; [congruence|].
  rewrite no_linebreak_cons in Hl. apply andb_true_iff in Hl as [Hc Hl].
  apply negb_true_iff in Hc.
  unfold splitlines; fold splitlines. rewrite Hc.
  destruct l as [|c' l']; [reflexivity|].
  rewrite IH; [reflexivity | discriminate | exact Hl].
Qed.

(** [splitlines] undoes a join by line feeds of non-empty lines that
    have no line break inside. *)
Lemma splitlines_join (ls : list string) :
  Forall (fun l => l <> "" /\ Spec.no_linebreak l = true) ls ->
  splitlines (PyStr.join PyStr.LF ls) = ls.
Proof.
  induction 1 as [|l ls [Hne Hl] Hls IH]; [reflexivity|].
  destruct ls as [|l' ls'].
  - simpl. now apply splitlines_one_line.
  - change (PyStr.join PyStr.LF (l :: l' :: ls'))
      with (l ++ PyStr.LF ++ PyStr.join PyStr.LF (l' :: ls')).
    rewrite splitlines_app_LF by exact Hl. now rewrite IH.
Qed.

Lemma is_sp_true (c : ascii) : is_sp c = true -> c = " "%char.
Proof. apply Ascii.eqb_eq. Qed.

(** Without two spaces in a row there is nothing to split. *)
Lemma split_double_space_id (l : string) :
  Spec.no_double_space l = true -> split_double_space l = [l].
Proof.
  unfold Spec.no_double_space. rewrite negb_true_iff.
  induction l as [|c l IH]; intros H; [reflexivity|].
  rewrite str_in_cons in H. apply orb_false_iff in H as [Hpre Hin].
  unfold split_double_space; fold split_double_space.
  destruct l as [|c' l']; [reflexivity|].
  destruct (is_sp c && is_sp c') eqn:Hsp.
  - apply andb_true_iff in Hsp as [H1 H2].
    apply is_sp_true in H1, H2. subst. simpl in Hpre.
    destruct l'; discriminate.
  - rewrite (IH Hin). reflexivity.
Qed.

Lemma truthy_spec (s : string) : truthy s = true <-> s <> "".
Proof.
  unfold truthy. rewrite negb_true_iff. split.
  - intros H ->. discriminate.
  - intros H. apply String.eqb_neq. exact H.
Qed.

Lemma normal_line_spec (l : string) :
  Spec.normal_line l = true <->
  l <> "" /\ strip l = l /\ Spec.no_linebreak l = true
  /\ Spec.no_double_space l = true.
Proof.
  unfold Spec.normal_line.
  rewrite !andb_true_iff, truthy_spec, String.eqb_eq. tauto.
Qed.

(** The clean-up leaves a list of normal lines, joined by line feeds,
    as it is. *)
Lemma text_content_join (ls : list string) :
  forallb Spec.normal_line ls = true ->
  text_content (PyStr.join PyStr.LF ls) = PyStr.join PyStr.LF ls.
Proof.
  intros Hls. rewrite forallb_forall in Hls.
  assert (Hall : Forall (fun l => Spec.normal_line l = true) ls)
    by (apply Forall_forall; intros l Hl; apply Hls; now apply list_elem_of_In).
  clear Hls.
  unfold text_content, chunks, lines. f_equal.
  rewrite splitlines_join.
  2:{ eapply Forall_impl; [exact Hall|]. intros l Hl.
      apply normal_line_spec in Hl. tauto. }
  induction Hall as [|l ls Hl Hall IH]; [reflexivity|].
  apply normal_line_spec in Hl as (Hne & Hstrip & Hlb & Hds).
  simpl. rewrite Hstrip, (split_double_space_id l Hds). simpl.
  rewrite Hstrip. rewrite filter_cons_True by (now apply Is_true_true, truthy_spec).
  f_equal. exact IH.
Qed.

(** *** What the clean-up produces *)

Lemma piece_of_refl (l : string) : piece_of l l.
Proof. exists "", "". simpl. now rewrite app_empty_r. Qed.

Lemma piece_of_trans (a b c : string) :
  piece_of a b -> piece_of b c -> piece_of a c.
Proof.
  intros [p [q ->]] [p' [q' ->]].
  exists (p' ++ p), (q ++ q'). now rewrite !app_assoc_str.
Qed.

Lemma piece_of_cons (c : ascii) (m l : string) :
  piece_of m l -> piece_of m (String c l).
Proof. intros [p [q ->]]. now exists (String c p), q. Qed.

Lemma no_linebreak_app (a b : string) :
  Spec.no_linebreak (a ++ b) = Spec.no_linebreak a && Spec.no_linebreak b.
Proof.
  induction a as [|c a IH]; [reflexivity|].
  change (String c a ++ b) with (String c (a ++ b)).
  rewrite !no_linebreak_cons, IH. now rewrite andb_assoc.
Qed.

Lemma no_linebreak_piece (m l : string) :
  piece_of m l -> Spec.no_linebreak l = true -> Spec.no_linebreak m = true.
Proof.
  intros [p [q ->]]. rewrite !no_linebreak_app, !andb_true_iff. tauto.
Qed.

Lemma no_double_space_piece (m l : string) :
  piece_of m l -> Spec.no_double_space l = true -> Spec.no_double_space m = true.
Proof.
  unfold Spec.no_double_space. rewrite !negb_true_iff. intros Hm Hl.
  destruct (PyStr.str_in "  " m) eqn:H; [|reflexivity].
  rewrite <- Hl. symmetry. eapply str_in_trans; [exact H|].
  now apply str_in_spec.
Qed.

Lemma lstrip_piece (l : string) : exists p, l = p ++ lstrip l.
Proof.
  induction l as [|c l [p Hp]]; [now exists ""|].
  simpl. destruct (is_space c).
  - exists (String c p). simpl. now rewrite <- Hp.
  - now exists "".
Qed.

Lemma rstrip_cons (c : ascii) (l : string) :
  rstrip (String c l)
  = match rstrip l with
    | EmptyString => if is_space c then EmptyString else String c EmptyString
    | r => String c r
    end.
Proof. reflexivity. Qed.

Lemma rstrip_piece (l : string) : exists q, l = rstrip l ++ q.
Proof.
  induction l as [|c l [q Hq]]; [now exists ""|].
  rewrite rstrip_cons. destruct (rstrip l) as [|c' r].
  - destruct (is_space c).
    + now exists (String c l).
    + exists q. simpl. simpl in Hq. now rewrite <- Hq.
  - exists q. simpl. simpl in Hq. now rewrite <- Hq.
Qed.

Lemma strip_piece (l : string) : piece_of (strip l) l.
Proof.
  destruct (lstrip_piece l) as [p Hp].
  destruct (rstrip_piece (lstrip l)) as [q Hq].
  exists p, q. unfold strip. now rewrite <- Hq.
Qed.

Lemma lstrip_clean_start (l : string) : clean_start (lstrip l).
Proof.
  induction l as [|c l IH]; [exact I|].
  simpl. destruct (is_space c) eqn:Hc; [exact IH | exact Hc].
Qed.

Lemma clean_start_lstrip (l : string) : clean_start l -> lstrip l = l.
Proof. destruct l as [|c l]; [reflexivity|]. simpl. now intros ->. Qed.

Lemma rstrip_clean_start (l : string) : clean_start l -> clean_start (rstrip l).
Proof.
  destruct l as [|c l]; [intros _; exact I|].
  simpl. intros Hc. destruct (rstrip l); [rewrite Hc|]; exact Hc.
Qed.

Lemma rstrip_idempotent (l : string) : rstrip (rstrip l) = rstrip l.
Proof.
  induction l as [|c l IH]; [reflexivity|].
  rewrite rstrip_cons. destruct (rstrip l) as [|c' r] eqn:Hr.
  - destruct (is_space c) eqn:Hc; [reflexivity|].
    simpl. now rewrite Hc.
  - rewrite rstrip_cons, IH. reflexivity.
Qed.

Lemma strip_idempotent (l : string) : strip (strip l) = strip l.
Proof.
  unfold strip at 1.
  rewrite clean_start_lstrip.
  - unfold strip. apply rstrip_idempotent.
  - unfold strip. apply rstrip_clean_start, lstrip_clean_start.
Qed.

Lemma cons_head_no_linebreak (c : ascii) (ls : list string) :
  is_linebreak c = false ->
  Forall (fun l => Spec.no_linebreak l = true) ls ->
  Forall (fun l => Spec.no_linebreak l = true) (cons_head c ls).
Proof.
  intros Hc Hls. destruct Hls as [|l ls Hl Hls]; simpl.
  - constructor; [|constructor]. rewrite no_linebreak_cons, Hc. reflexivity.
  - constructor; [|exact Hls]. now rewrite no_linebreak_cons, Hc, Hl.
Qed.

(** The lines [splitlines] gives have no line break inside. *)
Lemma splitlines_no_linebreak (s : string) :
  Forall (fun l => Spec.no_linebreak l = true) (splitlines s).
Proof.
  assert (H : forall n s, String.length s <= n ->
              Forall (fun l => Spec.no_linebreak l = true) (splitlines s)).
  { clear s. induction n as [|n IH]; intros s Hlen.
    - destruct s; [constructor | simpl in Hlen; lia].
    - destruct s as [|c s']; [constructor|].
      simpl in Hlen. unfold splitlines; fold splitlines.
      destruct (is_linebreak c) eqn:Hc.
      + constructor; [reflexivity|].
        destruct s' as [|c' s'']; [constructor|].
        destruct (is_cr c && is_lf c'); apply IH; simpl in *; lia.
      + apply cons_head_no_linebreak; [exact Hc | apply IH; lia]. }
  now apply (H (String.length s)).
Qed.

Lemma prefix_double_space (c : ascii) (l : string) :
  String.prefix "  " (String c l)
  = is_sp c && match l with
               | String c' _ => is_sp c'
               | EmptyString => false
               end.
Proof.
  apply eq_true_iff_eq. rewrite prefix_spec, andb_true_iff. split.
  - intros [q Hq]. simpl in Hq. injection Hq as -> ->. now split.
  - intros [Hc Hl]. destruct l as [|c' l']; [discriminate|].
    apply is_sp_true in Hc, Hl. subst. now exists l'.
Qed.

Lemma str_in_double_space_cons (c : ascii) (l : string) :
  PyStr.str_in "  " (String c l)
  = (is_sp c && match l with
                | String c' _ => is_sp c'
                | EmptyString => false
                end)
    || PyStr.str_in "  " l.
Proof. now rewrite str_in_cons, prefix_double_space. Qed.

Lemma split_double_space_cons (c : ascii) (s' : string) :
  split_double_space (String c s')
  = match s' with
    | String c' s'' =>
        if is_sp c && is_sp c' then EmptyString :: split_double_space s''
        else cons_head c (split_double_space s')
    | EmptyString => [String c EmptyString]
    end.
Proof. reflexivity. Qed.

Lemma split_double_space_nonempty (s : string) :
  exists p ps, split_double_space s = p :: ps.
Proof.
  destruct s as [|c s']; [now exists "", []|].
  rewrite split_double_space_cons. destruct s' as [|c' s''].
  - now exists (String c ""), [].
  - destruct (is_sp c && is_sp c'); [now eexists _, _|].
    destruct (split_double_space (String c' s'')); simpl; now eexists _, _.
Qed.

(** What [split_double_space] gives: pieces of the line, none with two
    spaces in a row, the first of them at the start of the line. *)
Lemma split_double_space_pieces (s : string) :
  Forall (fun p => piece_of p s /\ Spec.no_double_space p = true)
         (split_double_space s)
  /\ (forall p ps, split_double_space s = p :: ps -> exists q, s = p ++ q).
Proof.
  assert (H : forall n s, String.length s <= n ->
    Forall (fun p => piece_of p s /\ Spec.no_double_space p = true)
           (split_double_space s)
    /\ (forall p ps, split_double_space s = p :: ps -> exists q, s = p ++ q)).
  { clear s. induction n as [|n IH]; intros s Hlen.
    - destruct s; [|simpl in Hlen; lia]. split.
      + constructor; [|constructor]. split; [apply piece_of_refl | reflexivity].
      + intros p ps [= <- <-]. now exists "".
    - destruct s as [|c s'].
      { split.
        + constructor; [|constructor]. split; [apply piece_of_refl | reflexivity].
        + intros p ps [= <- <-]. now exists "". }
      simpl in Hlen. rewrite split_double_space_cons.
      destruct s' as [|c' s''].
      { split.
        + constructor; [|constructor]. split; [apply piece_of_refl|].
          unfold Spec.no_double_space.
          now rewrite str_in_double_space_cons, andb_false_r.
        + intros p ps [= <- <-]. now exists "". }
      destruct (is_sp c && is_sp c') eqn:Hsp.
      + split.
        * constructor.
          -- split; [now exists "", (String c (String c' s'')) | reflexivity].
          -- destruct (IH s'') as [Hall _]; [simpl in *; lia|].
             eapply Forall_impl; [exact Hall|]. intros p [Hp Hd].
             split; [|exact Hd]. now apply piece_of_cons, piece_of_cons.
        * intros p ps [= <- _]. now eexists.
      + destruct (IH (String c' s'')) as [Hall Hfirst]; [lia|].
        destruct (split_double_space (String c' s'')) as [|p0 ps0] eqn:Hsplit.
        { destruct (split_double_space_nonempty (String c' s'')) as (p & ps & E).
          congruence. }
        destruct (Hfirst p0 ps0 eq_refl) as [q Hq].
        simpl. split.
        * apply Forall_cons in Hall as [[Hp0 Hd0] Hrest]. constructor.
          -- split.
             ++ exists "", q. simpl. now rewrite <- Hq.
             ++ unfold Spec.no_double_space in *.
                rewrite negb_true_iff in *.
                rewrite str_in_double_space_cons, Hd0, orb_false_r.
                destruct p0 as [|c0 p0']; [apply andb_false_r|].
                simpl in Hq. injection Hq as <- _. exact Hsp.
          -- eapply Forall_impl; [exact Hrest|]. intros p [Hp Hd].
             split; [|exact Hd]. now apply piece_of_cons.
        * intros p ps [= <- _]. exists q. simpl. now rewrite <- Hq. }
  now apply (H (String.length s)).
Qed.

(** Every chunk the clean-up keeps is a normal line. *)
Lemma kept_chunks_normal (raw_content : string) :
  forallb Spec.normal_line (filter (fun chunk => truthy chunk) (chunks raw_content))
  = true.
Proof.
  apply forallb_forall. intros chunk Hin.
  apply list_elem_of_In, list_elem_of_filter in Hin as [Htruthy Hin].
  apply Is_true_true, truthy_spec in Htruthy.
  unfold chunks, lines in Hin.
  apply list_elem_of_fmap in Hin as (phrase & -> & Hin).
  apply list_elem_of_In, in_flat_map in Hin as (line & Hline & Hphrase).
  apply list_elem_of_In, list_elem_of_fmap in Hline as (raw_line & -> & Hraw).
  pose proof (splitlines_no_linebreak raw_content) as Hlb.
  rewrite Forall_forall in Hlb. specialize (Hlb raw_line Hraw).
  destruct (split_double_space_pieces (strip raw_line)) as [Hpieces _].
  rewrite Forall_forall in Hpieces.
  destruct (Hpieces phrase) as [Hpiece Hds]; [now apply list_elem_of_In|].
  apply normal_line_spec. split; [exact Htruthy|].
  split; [apply strip_idempotent|]. split.
  - apply (no_linebreak_piece _ raw_line); [|exact Hlb].
    eapply piece_of_trans; [apply strip_piece|].
    eapply piece_of_trans; [exact Hpiece | apply strip_piece].
  - apply (no_double_space_piece _ phrase); [apply strip_piece | exact Hds].
Qed.

(** What the clean-up returns is in normal form. *)
Lemma text_content_normal_form (raw_content : string) :
  Spec.normal_form (text_content raw_content).
Proof.
  exists (filter (fun chunk => truthy chunk) (chunks raw_content)).
  split; [reflexivity | apply kept_chunks_normal].
Qed.

(** Cleaning up twice is cleaning up once. *)
Lemma text_content_idempotent (raw_content : string) :
  text_content (text_content raw_content) = text_content raw_content.
Proof.
  destruct (text_content_normal_form raw_content) as (ls & -> & Hls).
  now apply text_content_join.
Qed.

(** C9.  A text in normal form (non-empty lines with nothing to strip,
    no line break inside and no two spaces in a row, joined by single
    line feeds) comes out of the clean-up unchanged. *)
Theorem normal_form_unchanged (t : string) :
  Spec.normal_form t -> text_content t = t.
Proof. intros (ls & -> & Hls). now apply text_content_join. Qed.

Lemma normal_form_unchanged_witness :
  text_content (PyStr.join PyStr.LF ["Title"; "First paragraph."; "Second one"])
  = PyStr.join PyStr.LF ["Title"; "First paragraph."; "Second one"].
Proof.
  apply normal_form_unchanged.
  exists ["Title"; "First paragraph."; "Second one"].
  split; reflexivity.
Defined.

(** A carriage return inside a line is a line break for [splitlines]:
    such a line is not normal, and the clean-up rewrites it. *)
Example carriage_return_splits_a_line :
  text_content (String "a" (String "013" "b")) = String "a" (String "010" "b")
  /\ Spec.normal_line (String "a" (String "013" "b")) = false.
Proof. split; reflexivity. Qed.

End NormalizerFacts.

(** * Further properties of the code *)

(** ** scraper.py: selection, persistence, batches *)

Section ScraperMore.

Variable w : World.
Variable self : Scraper.

Lemma registry_lookup_None (key : string) :
  SCRAPER_CLASSES !! key = None <-> ~ In key registered_keys.
Proof.
  unfold SCRAPER_CLASSES. rewrite <- not_elem_of_list_to_map.
  rewrite list_elem_of_In. reflexivity.
Qed.

(** [get_scraper] raises in one case only, and always the same
    exception: the URL neither ends in ".pdf" nor contains "arxiv.org",
    and the configured key is none of the eight registered ones. *)
Theorem get_scraper_raises_iff (link : string) (e : exn) :
  get_scraper self link = Raise e <->
  e = Exception "Scraper not found." /\
  PyStr.endswith link ".pdf" = false /\
  PyStr.str_in "arxiv.org" link = false /\
  ~ In (scraper self) registered_keys.
Proof.
  rewrite <- registry_lookup_None.
  destruct (PyStr.endswith link ".pdf") eqn:Hpdf.
  { rewrite (get_scraper_pdf self link Hpdf). split; [discriminate|].
    intros (_ & H & _). discriminate. }
  destruct (PyStr.str_in "arxiv.org" link) eqn:Harxiv.
  { rewrite (get_scraper_arxiv self link Hpdf Harxiv). split; [discriminate|].
    intros (_ & _ & H & _). discriminate. }
  destruct (get_scraper_default self link Hpdf Harxiv) as [_ ->].
  destruct (SCRAPER_CLASSES !! scraper self) as [c|].
  - split; [discriminate|]. intros (_ & _ & _ & H). discriminate.
  - split.
    + intros [= <-]. repeat split.
    + intros (-> & _). reflexivity.
Qed.

(** A strategy that hands back [None] as content makes the task fail
    (the length test raises), with the record of line 170: the title the
    strategy gave is not kept. *)
Theorem none_content_fails (i : nat) (link : string) (C : ScraperClass)
    (r : scraped) :
  call_strategy w self i link = Ok (C, r) ->
  content r = PyNone ->
  extract_data_from_url w self i link
  = Ok {| status := Failed;
          record := {| url := link; raw_content := PyNone;
                       image_urls := []; title := "" |};
          db_calls := [] |}.
Proof.
  intros Hs Hc. apply (extract_failed w self i link (TypeError
    "object of type 'NoneType' has no len()")).
  unfold try_body. rewrite Hs. simpl. rewrite Hc. reflexivity.
Qed.

(** The database is called for accepted pages only, at most once per
    task, and exactly when [job_id] is set and the manager was built; the
    page handed over has the URL, title, text and images of the returned
    record, the job of the instance, and the length of the text as
    [content_length]. *)
Theorem sink_receives_accepted_record (i : nat) (link : string) :
  exists t, extract_data_from_url w self i link = Ok t /\
    (status t <> Accepted -> db_calls t = []) /\
    (status t = Accepted ->
       length (db_calls t)
       = if job_id_truthy (job_id self) && db self then 1 else 0) /\
    (forall pg, In pg (db_calls t) ->
       page_job_id pg = job_id self /\
       page_url pg = url (record t) /\
       page_title pg = title (record t) /\
       page_content pg = raw_content (record t) /\
       meta_image_urls pg = image_urls (record t) /\
       py_len (page_content pg) = Ok (meta_content_length pg) /\
       (100 <= meta_content_length pg)%Z).
Proof.
  destruct (try_body w self i link) as [t|e] eqn:Hbody.
  2:{ exists (failed_run link). split; [now apply (extract_failed w self i link e)|].
      simpl. split; [reflexivity|]. split; [discriminate | contradiction]. }
  exists t. split; [unfold extract_data_from_url; now rewrite Hbody|].
  unfold try_body in Hbody.
  destruct (call_strategy w self i link) as [[C r]|e']; [|discriminate].
  simpl in Hbody.
  destruct (content r) as [|s] eqn:Hc; simpl in Hbody; [discriminate|].
  destruct (PyStr.len s <? 100)%Z eqn:Hlen.
  - injection Hbody as <-. simpl.
    split; [reflexivity|]. split; [discriminate | contradiction].
  - apply Z.ltb_ge in Hlen.
    destruct (job_id_truthy (job_id self) && db self);
      [destruct (insert_scraped_page w i _) |];
      simpl in Hbody; injection Hbody as <-; simpl;
      (split; [congruence|]); (split; [reflexivity|]);
      try contradiction;
      intros pg [<-|[]]; simpl; repeat split; exact Hlen.
Qed.

(** What a task returns (label and record) does not depend on the
    database, on what it answers, or on whether a job is configured; and
    so neither does what [run] returns. *)
Theorem persistence_never_changes_outcome
    (sink : nat -> page -> result unit) (j : option string) (d : bool) :
  (forall i link, exists t t',
     extract_data_from_url w self i link = Ok t /\
     extract_data_from_url (with_sink w sink) (with_job self j d) i link = Ok t' /\
     status t' = status t /\ record t' = record t) /\
  run (with_sink w sink) (with_job self j d) = run w self.
Proof.
  assert (Htask : forall i link, exists t t',
     extract_data_from_url w self i link = Ok t /\
     extract_data_from_url (with_sink w sink) (with_job self j d) i link = Ok t' /\
     status t' = status t /\ record t' = record t).
  { intros i link. unfold extract_data_from_url, throttle, try_body.
    change (call_strategy (with_sink w sink) (with_job self j d) i link)
      with (call_strategy w self i link).
    destruct (call_strategy w self i link) as [[C r]|e]; simpl;
      [|now eexists _, _].
    destruct (content r) as [|s]; simpl; [now eexists _, _|].
    destruct (PyStr.len s <? 100)%Z; [now eexists _, _|].
    destruct (job_id_truthy (job_id self) && db self);
      [destruct (insert_scraped_page w i _)|];
      (destruct (job_id_truthy j && d); [destruct (sink i _)|]);
      simpl; now eexists _, _. }
  split; [exact Htask|].
  destruct (gather_tasks w self) as (cs & Hg & Hlen & Hnth & _).
  destruct (gather_tasks (with_sink w sink) (with_job self j d))
    as (cs' & Hg' & Hlen' & Hnth' & _).
  unfold run. rewrite Hg, Hg'. simpl. do 2 f_equal.
  apply list_eq. intros i. rewrite !list_lookup_fmap.
  simpl in Hlen', Hnth'.
  destruct (urls self !! i) as [link|] eqn:Hi.
  - destruct (Hnth i link Hi) as (t & Ht & ->).
    destruct (Hnth' i link Hi) as (t' & Ht' & ->).
    destruct (Htask i link) as (t0 & t0' & H0 & H0' & _ & Hrec).
    rewrite Ht in H0. rewrite Ht' in H0'.
    injection H0 as <-. injection H0' as <-. simpl. now rewrite Hrec.
  - apply lookup_ge_None in Hi.
    rewrite (proj2 (lookup_ge_None cs' i)) by lia.
    rewrite (proj2 (lookup_ge_None cs i)) by lia. reflexivity.
Qed.

End ScraperMore.

Lemma none_content_fails_witness :
  extract_data_from_url
    (with_sink
       {| instantiate := fun _ _ _ => Ok tt;
          has_scrape_async := fun _ => true;
          scrape_async := fun _ _ _ =>
            Ok {| content := PyNone; scraped_image_urls := [];
                  scraped_title := "Untitled" |};
          scrape := fun _ _ _ => Raise (OtherError "AttributeError" "scrape");
          insert_scraped_page := fun _ _ => Ok tt |}
       (fun _ _ => Ok tt))
    Examples.batch 0 "https://example.com/page"
  = Ok {| status := Failed;
          record := {| url := "https://example.com/page"; raw_content := PyNone;
                       image_urls := []; title := "" |};
          db_calls := [] |}.
Proof.
  apply (none_content_fails _ Examples.batch 0 "https://example.com/page"
           BeautifulSoupScraper
           {| content := PyNone; scraped_image_urls := [];
              scraped_title := "Untitled" |});
    reflexivity.
Defined.

Section Batches.

Variable w : World.
Variable self : Scraper.

Lemma gather_app {A} (l1 l2 : list (result A)) :
  gather (l1 ++ l2)%list
  = xs ← gather l1; ys ← gather l2; Ok (xs ++ ys)%list.
Proof.
  induction l1 as [|a l1 IH]; simpl.
  - destruct (gather l2); reflexivity.
  - destruct a as [x|e]; simpl; [|reflexivity].
    rewrite IH. destruct (gather l1) as [xs|e]; simpl; [|reflexivity].
    destruct (gather l2); reflexivity.
Qed.


End Batches.

(** ** scraper.py: the constructor *)

Module ScraperInitFacts.
Import ScraperInit.

Lemma check_if_other (py : Interpreter) (scraper name : string) :
  scraper <> name -> check_if py scraper name = (Ok tt, []).
Proof.
  intros Hne. unfold check_if.
  now rewrite (proj2 (String.eqb_neq scraper name) Hne).
Qed.

Lemma check_if_same (py : Interpreter) (name : string) :
  check_if py name name = _check_pkg py name.
Proof. unfold check_if. now rewrite String.eqb_refl. Qed.

(** What [_check_pkg] does for a name that [pkg_map] has: pip is run
    only for a package that cannot be imported, and an exception is the
    one of the pip call, turned into [ImportError] when it is a
    [CalledProcessError]. *)
Lemma check_pkg_known (py : Interpreter) (name : string) (p : pkg) :
  pkg_map !! name = Some p ->
  (forall n, In n (snd (_check_pkg py name)) ->
     snd (_check_pkg py name) = [n] /\
     n = package_installation_name p /\
     find_spec py (import_name p) = false) /\
  (forall e, fst (_check_pkg py name) = Raise e ->
     find_spec py (import_name p) = false /\
     exists e0, check_call py (package_installation_name p) = Raise e0 /\
       e = if is_CalledProcessError e0
           then install_failed (package_installation_name p) else e0).
Proof.
  intros H. unfold _check_pkg. rewrite H.
  destruct (find_spec py (import_name p)); simpl.
  { split; [intros n [] | discriminate]. }
  split.
  - intros n [<-|[]]. now repeat split.
  - intros e He. split; [reflexivity|].
    destruct (check_call py (package_installation_name p)) as [[]|e0];
      [discriminate|].
    exists e0. split; [reflexivity|].
    destruct (is_CalledProcessError e0); now injection He.
Qed.

(** Lines 49-54, once [self.db] has its value [d]. *)
Lemma init_checks (py : Interpreter) (urls_ : list string) (scraper_ : string)
    (job_id_ : option string) (d : bool) (out : result Scraper * list string) :
  out = (let '(r1, installs1) := check_if py scraper_ "tavily_extract" in
         match r1 with
         | Raise e => (Raise e, installs1)
         | Ok _ =>
             let '(r2, installs2) := check_if py scraper_ "firecrawl" in
             (_ ← r2;
              Ok {| urls := urls_; scraper := scraper_; job_id := job_id_;
                    db := d |},
              (installs1 ++ installs2)%list)
         end) ->
  (forall self, fst out = Ok self ->
     self = {| urls := urls_; scraper := scraper_; job_id := job_id_; db := d |}) /\
  (forall name, In name (snd out) ->
     snd out = [name] /\
     exists p, pkg_map !! scraper_ = Some p /\
               name = package_installation_name p /\
               find_spec py (import_name p) = false) /\
  (forall e, fst out = Raise e ->
     exists p, pkg_map !! scraper_ = Some p /\
       find_spec py (import_name p) = false /\
       exists e0, check_call py (package_installation_name p) = Raise e0 /\
         e = if is_CalledProcessError e0
             then install_failed (package_installation_name p) else e0).
Proof.
  intros ->.
  destruct (String.eqb_spec scraper_ "tavily_extract") as [->|Hta];
    [|destruct (String.eqb_spec scraper_ "firecrawl") as [->|Hfi]].
  - rewrite check_if_same, (check_if_other py _ "firecrawl") by discriminate.
    destruct (check_pkg_known py "tavily_extract"
                {| package_installation_name := "tavily-python";
                   import_name := "tavily" |} eq_refl) as [Hin Hraise].
    destruct (_check_pkg py "tavily_extract") as [[[]|e0] installs]; simpl in *.
    + rewrite app_nil_r. split; [now intros self [= <-]|].
      split; [|discriminate]. intros name Hname.
      destruct (Hin name Hname) as (-> & -> & Hfs).
      split; [reflexivity|]. eexists. now repeat split.
    + split; [discriminate|]. split.
      * intros name Hname. destruct (Hin name Hname) as (-> & -> & Hfs).
        split; [reflexivity|]. eexists. now repeat split.
      * intros e [= <-]. destruct (Hraise e0 eq_refl) as (Hfs & e1 & Hcc & He).
        eexists. split; [reflexivity|]. split; [exact Hfs|]. now exists e1.
  - rewrite (check_if_other py _ "tavily_extract") by discriminate.
    rewrite check_if_same.
    destruct (check_pkg_known py "firecrawl"
                {| package_installation_name := "firecrawl-py";
                   import_name := "firecrawl" |} eq_refl) as [Hin Hraise].
    destruct (_check_pkg py "firecrawl") as [[[]|e0] installs]; simpl in *.
    + split; [now intros self [= <-]|].
      split; [|discriminate]. intros name Hname.
      destruct (Hin name Hname) as (-> & -> & Hfs).
      split; [reflexivity|]. eexists. now repeat split.
    + split; [discriminate|]. split.
      * intros name Hname. destruct (Hin name Hname) as (-> & -> & Hfs).
        split; [reflexivity|]. eexists. now repeat split.
      * intros e [= <-]. destruct (Hraise e0 eq_refl) as (Hfs & e1 & Hcc & He).
        eexists. split; [reflexivity|]. split; [exact Hfs|]. now exists e1.
  - rewrite (check_if_other py _ "tavily_extract") by exact Hta.
    rewrite (check_if_other py _ "firecrawl") by exact Hfi. simpl.
    split; [now intros self [= <-]|]. split; [intros name []|discriminate].
Qed.

(** The constructor, case by case.  An instance that is built stores its
    arguments, and has a database manager exactly when [job_id] is set.
    pip is run at most once, only for the strategies "tavily_extract"
    and "firecrawl" and only when their package cannot be imported.  An
    exception that leaves the constructor is the one of
    [DatabaseManager()], the [ImportError] of a failed installation, or
    another exception of the pip call: the look-up in [pkg_map] never
    fails. *)
Theorem constructor_outcomes (py : Interpreter) (urls_ : list string)
    (scraper_ : string) (job_id_ : option string) :
  (forall self, fst (__init__ py urls_ scraper_ job_id_) = Ok self ->
     urls self = urls_ /\ scraper self = scraper_ /\ job_id self = job_id_ /\
     db self = job_id_truthy job_id_) /\
  (forall name, In name (snd (__init__ py urls_ scraper_ job_id_)) ->
     snd (__init__ py urls_ scraper_ job_id_) = [name] /\
     exists p, pkg_map !! scraper_ = Some p /\
               name = package_installation_name p /\
               find_spec py (import_name p) = false) /\
  (forall e, fst (__init__ py urls_ scraper_ job_id_) = Raise e ->
     (job_id_truthy job_id_ = true /\ new_DatabaseManager py = Raise e)
     \/ exists p, pkg_map !! scraper_ = Some p /\
          find_spec py (import_name p) = false /\
          exists e0, check_call py (package_installation_name p) = Raise e0 /\
            e = if is_CalledProcessError e0
                then install_failed (package_installation_name p) else e0).
Proof.
  unfold __init__.
  destruct (job_id_truthy job_id_) eqn:Hjob;
    [destruct (new_DatabaseManager py) as [[]|e0] eqn:Hdb|]; simpl.
  - destruct (init_checks py urls_ scraper_ job_id_ true _ eq_refl)
      as (Hok & Hin & Hraise).
    split; [intros self Hs; now rewrite (Hok self Hs)|].
    split; [exact Hin|]. intros e He. right. now apply Hraise.
  - split; [discriminate|]. split; [intros name []|].
    intros e [= <-]. now left.
  - destruct (init_checks py urls_ scraper_ job_id_ false _ eq_refl)
      as (Hok & Hin & Hraise).
    split; [intros self Hs; now rewrite (Hok self Hs)|].
    split; [exact Hin|]. intros e He. right. now apply Hraise.
Qed.

End ScraperInitFacts.

(** ** scraperapi.py: the requests made and the text returned *)

Module ScraperAPIMore.
Import ScraperAPI.

Lemma retry_loop_length (get : nat -> result Response) (n i : nat)
    (response : local) :
  length (snd (retry_loop get n i response)) <= n.
Proof.
  revert i response. induction n as [|n IH]; intros i response; simpl; [lia|].
  destruct (get i) as [r|e].
  - destruct (terminal r); [simpl; lia|].
    specialize (IH (S i) (Bound (Some r))).
    destruct (retry_loop get n (S i) (Bound (Some r))). simpl in *. lia.
  - destruct e; try (simpl; lia).
    specialize (IH (S i) (Bound None)).
    destruct (retry_loop get n (S i) (Bound None)). simpl in *. lia.
Qed.

(** The answers are those to the requests 0, 1, 2, ... and every answer
    but the last is one after which the loop goes on. *)
Lemma retry_loop_answers (get : nat -> result Response) (n i : nat)
    (response : local) (j : nat) (a : result Response) :
  snd (retry_loop get n i response) !! j = Some a ->
  a = get (i + j) /\
  (S j < length (snd (retry_loop get n i response)) -> goes_on a).
Proof.
  revert i response j. induction n as [|n IH]; intros i response j; simpl;
    [discriminate|].
  destruct (get i) as [r|e] eqn:Hget.
  - destruct (terminal r) eqn:Hterm.
    + simpl. destruct j; [|discriminate]. intros [= <-].
      rewrite Nat.add_0_r. split; [now rewrite Hget | lia].
    + specialize (IH (S i) (Bound (Some r))).
      destruct (retry_loop get n (S i) (Bound (Some r))) as [res answers].
      simpl in *. destruct j as [|j]; simpl.
      * intros [= <-]. rewrite Nat.add_0_r. split; [now rewrite Hget|].
        intros _. left. now exists r.
      * intros Hj. destruct (IH j Hj) as [Ha Hgo].
        split; [now replace (i + S j) with (S i + j) by lia|].
        intros Hlt. apply Hgo. lia.
  - destruct e;
      try (simpl; destruct j; [|discriminate]; intros [= <-];
           rewrite Nat.add_0_r; split; [now rewrite Hget | lia]).
    specialize (IH (S i) (Bound None)).
    destruct (retry_loop get n (S i) (Bound None)) as [res answers].
    simpl in *. destruct j as [|j]; simpl.
    + intros [= <-]. rewrite Nat.add_0_r. split; [now rewrite Hget|].
      intros _. right. now exists msg.
    + intros Hj. destruct (IH j Hj) as [Ha Hgo].
      split; [now replace (i + S j) with (S i + j) by lia|].
      intros Hlt. apply Hgo. lia.
Qed.

(** The loop leaves in [response] what the last answer was. *)
Lemma retry_loop_last (get : nat -> result Response) (n i : nat)
    (response l : local) :
  fst (retry_loop get n i response) = Ok l ->
  match last (snd (retry_loop get n i response)) with
  | None => l = response
  | Some (Ok r) => l = Bound (Some r)
  | Some (Raise _) => l = Bound None
  end.
Proof.
  revert i response. induction n as [|n IH]; intros i response; simpl.
  - now intros [= <-].
  - destruct (get i) as [r|e].
    + destruct (terminal r); [simpl; now intros [= <-]|].
      specialize (IH (S i) (Bound (Some r))).
      destruct (retry_loop get n (S i) (Bound (Some r))) as [res answers].
      simpl in *. intros Hres. specialize (IH Hres).
      destruct answers as [|a answers]; [exact IH|].
      rewrite last_cons_cons.
      destruct (last (a :: answers)) eqn:El; [exact IH|].
      apply last_None in El. discriminate.
    + destruct e; try (simpl; discriminate).
      specialize (IH (S i) (Bound None)).
      destruct (retry_loop get n (S i) (Bound None)) as [res answers].
      simpl in *. intros Hres. specialize (IH Hres).
      destruct answers as [|a answers]; [exact IH|].
      rewrite last_cons_cons.
      destruct (last (a :: answers)) eqn:El; [exact IH|].
      apply last_None in El. discriminate.
Qed.

(** The requests of one call: never more than [num_retries] (none for a
    negative number), numbered from 0 in the order they are made, and
    none is made after a 200 or a 404, or after an exception that is not
    a connection error. *)
Theorem requests_are_bounded_and_stop (net : network) (self : t) (url : string) :
  (Z.of_nat (length (snd (scrape_url net self url)))
   <= Z.max 0 (num_retries self))%Z /\
  (forall j a, snd (scrape_url net self url) !! j = Some a ->
     a = net j endpoint (params self url) /\
     (S j < length (snd (scrape_url net self url)) -> goes_on a)).
Proof.
  rewrite ScraperAPIFacts.scrape_url_unfold. simpl. split.
  - pose proof (retry_loop_length (fun i => net i endpoint (params self url))
                  (Z.to_nat (num_retries self)) 0 Unbound). lia.
  - intros j a Hj.
    apply (retry_loop_answers (fun i => net i endpoint (params self url))
             (Z.to_nat (num_retries self)) 0 Unbound j a Hj).
Qed.

(** A text that is not empty is the body of the last response received,
    and that response has status 200: the body of any other response is
    never returned. *)
Theorem text_only_from_200 (net : network) (self : t) (url s : string) :
  fst (scrape_url net self url) = Ok s ->
  s <> "" ->
  exists r, last (snd (scrape_url net self url)) = Some (Ok r) /\
            status_code r = 200%Z /\ text r = s.
Proof.
  rewrite ScraperAPIFacts.scrape_url_unfold. simpl.
  set (get := fun i => net i endpoint (params self url)).
  pose proof (retry_loop_last get (Z.to_nat (num_retries self)) 0 Unbound) as Hlast.
  destruct (fst (retry_loop get (Z.to_nat (num_retries self)) 0 Unbound))
    as [l|e]; [|discriminate].
  specialize (Hlast l eq_refl). simpl.
  destruct (last (snd (retry_loop get (Z.to_nat (num_retries self)) 0 Unbound)))
    as [[r|e]|]; subst l; simpl; try discriminate.
  - destruct (ok r && (status_code r =? 200)%Z) eqn:H200.
    + intros [= <-] _. exists r. apply andb_true_iff in H200 as [_ H200].
      apply Z.eqb_eq in H200. now repeat split.
    + intros [= <-]. congruence.
  - intros [= <-]. congruence.
Qed.

Lemma text_only_from_200_witness :
  exists r,
    last (snd (scrape_url Examples.flaky_network
                 {| api_key := "key"; num_retries := 5 |} "https://example.com/"))
    = Some (Ok r) /\ status_code r = 200%Z /\ text r = "<html/>".
Proof.
  apply (text_only_from_200 Examples.flaky_network
           {| api_key := "key"; num_retries := 5 |}
           "https://example.com/" "<html/>"); [reflexivity | discriminate].
Defined.

Lemma retry_loop_first_200 (get : nat -> result Response) (k n i : nat)
    (response : local) (r : Response) :
  k < n ->
  (forall j, j < k -> goes_on (get (i + j))) ->
  get (i + k) = Ok r -> terminal r = true ->
  fst (retry_loop get n i response) = Ok (Bound (Some r)) /\
  length (snd (retry_loop get n i response)) = S k.
Proof.
  revert n i response. induction k as [|k IH]; intros n i response Hk Hgo Hget Hterm.
  - destruct n as [|n]; [lia|]. simpl. rewrite Nat.add_0_r in Hget.
    rewrite Hget, Hterm. now split.
  - destruct n as [|n]; [lia|]. simpl.
    assert (Hnext : forall l,
      fst (retry_loop get n (S i) l) = Ok (Bound (Some r)) /\
      length (snd (retry_loop get n (S i) l)) = S k).
    { intros l. apply IH; [lia | | now replace (S i + k) with (i + S k) by lia
                          | exact Hterm].
      intros j Hj. replace (S i + j) with (i + S j) by lia. apply Hgo. lia. }
    destruct (Hgo 0) as [(r0 & Hr0 & Ht0) | (m & Hm)]; [lia | |];
      rewrite Nat.add_0_r in *.
    + rewrite Hr0, Ht0. destruct (Hnext (Bound (Some r0))) as [H1 H2].
      destruct (retry_loop get n (S i) (Bound (Some r0))). simpl in *.
      split; [exact H1 | now rewrite H2].
    + rewrite Hm. destruct (Hnext (Bound None)) as [H1 H2].
      destruct (retry_loop get n (S i) (Bound None)). simpl in *.
      split; [exact H1 | now rewrite H2].
Qed.

(** Success after retries: when request number [k] is the first to be
    answered with status 200, every earlier one having met a connection
    error or a status other than 200 and 404, and [k] is below
    [num_retries], the body of that response is returned after exactly
    [k + 1] requests. *)
Theorem first_200_is_returned (net : network) (self : t) (url : string)
    (k : nat) (r : Response) :
  (Z.of_nat k < num_retries self)%Z ->
  (forall j, j < k -> goes_on (net j endpoint (params self url))) ->
  net k endpoint (params self url) = Ok r ->
  status_code r = 200%Z ->
  fst (scrape_url net self url) = Ok (text r) /\
  length (snd (scrape_url net self url)) = S k.
Proof.
  intros Hk Hgo Hget H200. rewrite ScraperAPIFacts.scrape_url_unfold. simpl.
  destruct (retry_loop_first_200
              (fun i => net i endpoint (params self url))
              k (Z.to_nat (num_retries self)) 0 Unbound r) as [H1 H2];
    [lia | exact Hgo | exact Hget | unfold terminal; now rewrite H200 |].
  rewrite H1, H2. simpl. unfold ok. rewrite H200. now split.
Qed.

Lemma first_200_is_returned_witness :
  fst (scrape_url Examples.flaky_network
         {| api_key := "key"; num_retries := 5 |} "https://example.com/")
  = Ok "<html/>" /\
  length (snd (scrape_url Examples.flaky_network
                 {| api_key := "key"; num_retries := 5 |} "https://example.com/"))
  = 3.
Proof.
  apply (first_200_is_returned Examples.flaky_network
           {| api_key := "key"; num_retries := 5 |} "https://example.com/" 2
           {| status_code := 200; text := "<html/>" |}).
  - reflexivity.
  - intros [|[|j]] Hj; [left | right | lia].
    + now exists {| status_code := 500; text := "busy" |}.
    + now exists "refused".
  - reflexivity.
  - reflexivity.
Defined.


End ScraperAPIMore.

(** ** The clean-up and the adapters: what comes out *)

Module NormalizerMore.
Import Normalizer Spec NormalizerFacts.

Local Open Scope string_scope.

Lemma kept_chunks_lines (raw_content : string) :
  splitlines (text_content raw_content)
  = filter (fun chunk => truthy chunk) (chunks raw_content).
Proof.
  unfold text_content. apply splitlines_join.
  pose proof (kept_chunks_normal raw_content) as H.
  rewrite forallb_forall in H. apply Forall_forall. intros l Hl.
  apply list_elem_of_In, H, normal_line_spec in Hl. tauto.
Qed.

(** Read line by line, the text the clean-up returns has no empty line,
    no line with white space at either end, and no two spaces in a row;
    splitting it into lines and joining them again gives it back. *)
Theorem clean_text_lines (raw_content : string) :
  Forall (fun l => l <> "" /\ strip l = l /\ no_double_space l = true)
         (splitlines (text_content raw_content)) /\
  PyStr.join PyStr.LF (splitlines (text_content raw_content))
  = text_content raw_content.
Proof.
  rewrite kept_chunks_lines. split; [|reflexivity].
  pose proof (kept_chunks_normal raw_content) as H.
  rewrite forallb_forall in H. apply Forall_forall. intros l Hl.
  apply list_elem_of_In, H, normal_line_spec in Hl. tauto.
Qed.

Lemma all_space_cons (c : ascii) (s : string) :
  all_space (String c s) = is_space c && all_space s.
Proof. reflexivity. Qed.

Lemma lstrip_all_space (s : string) : all_space s = true -> lstrip s = "".
Proof.
  induction s as [|c s IH]; [reflexivity|].
  rewrite all_space_cons, andb_true_iff. intros [Hc Hs].
  simpl. rewrite Hc. now apply IH.
Qed.

Lemma strip_all_space (s : string) : all_space s = true -> strip s = "".
Proof. intros H. unfold strip. now rewrite lstrip_all_space. Qed.

Lemma cons_head_all_space (c : ascii) (ls : list string) :
  is_space c = true ->
  Forall (fun l => all_space l = true) ls ->
  Forall (fun l => all_space l = true) (cons_head c ls).
Proof.
  intros Hc Hls. destruct Hls as [|l ls Hl Hls]; simpl.
  - constructor; [|constructor]. now rewrite all_space_cons, Hc.
  - constructor; [|exact Hls]. now rewrite all_space_cons, Hc, Hl.
Qed.

Lemma splitlines_all_space (s : string) :
  all_space s = true -> Forall (fun l => all_space l = true) (splitlines s).
Proof.
  assert (H : forall n s, String.length s <= n -> all_space s = true ->
              Forall (fun l => all_space l = true) (splitlines s)).
  { clear s. induction n as [|n IH]; intros s Hlen Hs.
    - destruct s; [constructor | simpl in Hlen; lia].
    - destruct s as [|c s']; [constructor|].
      simpl in Hlen. rewrite all_space_cons in Hs.
      apply andb_true_iff in Hs as [Hc Hs'].
      unfold splitlines; fold splitlines.
      destruct (is_linebreak c).
      + constructor; [reflexivity|].
        destruct s' as [|c' s'']; [constructor|].
        rewrite all_space_cons in Hs'. apply andb_true_iff in Hs' as [Hc' Hs''].
        destruct (is_cr c && is_lf c'); apply IH; simpl in *; try lia;
          [exact Hs'' | now rewrite all_space_cons, Hc', Hs''].
      + apply cons_head_all_space; [exact Hc | apply IH; [lia | exact Hs']]. }
  now apply (H (String.length s)).
Qed.

(** A text made of white space only (spaces, tabs, line breaks) is
    cleaned up to the empty string. *)
Theorem white_space_gives_empty (raw_content : string) :
  all_space raw_content = true -> text_content raw_content = "".
Proof.
  intros Hs. unfold text_content, chunks, lines.
  pose proof (splitlines_all_space raw_content Hs) as Hlines.
  induction Hlines as [|l ls Hl Hls IH]; [reflexivity|].
  simpl. rewrite (strip_all_space l Hl). simpl. exact IH.
Qed.

Lemma white_space_gives_empty_witness :
  text_content (String " " (String "009" (String "010" (String "013" "  "))))
  = "".
Proof. apply white_space_gives_empty. reflexivity. Defined.

(** The loop of [parse_page] as one text: every element's text followed
    by a line feed. *)
Lemma fold_left_lines (ts : list Soup.Tag) (acc : string) :
  fold_left (fun text_ element => text_ ++ (Soup.text element ++ PyStr.LF)) ts acc
  = acc ++ fold_right (fun element rest => Soup.text element ++ PyStr.LF ++ rest)
                      "" ts.
Proof.
  revert acc. induction ts as [|t ts IH]; intros acc; simpl.
  - now rewrite app_empty_r.
  - rewrite IH, !app_assoc_str. reflexivity.
Qed.

Lemma clean_lines (ts : list Soup.Tag) :
  Forall (fun element => Soup.text element = ""
                         \/ normal_line (Soup.text element) = true) ts ->
  text_content
    (fold_right (fun element rest => Soup.text element ++ PyStr.LF ++ rest) "" ts)
  = PyStr.join PyStr.LF
      (filter (fun t => truthy t) (map Soup.text ts)).
Proof.
  intros Hts. unfold text_content, chunks, lines. f_equal.
  assert (Hsplit : splitlines
            (fold_right (fun element rest => Soup.text element ++ PyStr.LF ++ rest)
                        "" ts) = map Soup.text ts).
  { induction Hts as [|t ts Ht Hts IH]; [reflexivity|].
    cbn [fold_right map]. rewrite splitlines_app_LF, IH; [reflexivity|].
    destruct Ht as [->|Ht]; [reflexivity|].
    apply normal_line_spec in Ht. tauto. }
  rewrite Hsplit. clear Hsplit.
  induction Hts as [|t ts Ht Hts IH]; [reflexivity|].
  simpl. destruct Ht as [Ht|Ht].
  - rewrite Ht. simpl. exact IH.
  - apply normal_line_spec in Ht as (Hne & Hstrip & Hlb & Hds).
    rewrite Hstrip, (split_double_space_id _ Hds). simpl. rewrite Hstrip.
    rewrite !filter_cons_True by (now apply Is_true_true, truthy_spec).
    f_equal. exact IH.
Qed.

(** [parse_page] followed by the clean-up, on a page whose paragraphs
    and headings (p, h1 to h5) each hold one clean line or nothing:
    the result is these lines, in document order, joined by line feeds;
    empty elements and elements of other names leave no trace. *)
Theorem paragraphs_come_out_joined (s : Soup.soup) :
  Forall (fun element => Soup.text element = ""
                         \/ normal_line (Soup.text element) = true)
         (Soup.find_all ["p"; "h1"; "h2"; "h3"; "h4"; "h5"] s) ->
  text_content (Soup.parse_page s)
  = PyStr.join PyStr.LF
      (filter (fun t => truthy t)
         (map Soup.text (Soup.find_all ["p"; "h1"; "h2"; "h3"; "h4"; "h5"] s))).
Proof.
  intros H. unfold Soup.parse_page. rewrite fold_left_lines.
  change ("" ++ ?x) with x. now apply clean_lines.
Qed.

Lemma paragraphs_come_out_joined_witness :
  text_content
    (Soup.parse_page
       [ {| Soup.name := "h1"; Soup.text := "Title"; Soup.class_ := [] |};
         {| Soup.name := "div"; Soup.text := "  menu  "; Soup.class_ := ["nav"] |};
         {| Soup.name := "p"; Soup.text := ""; Soup.class_ := [] |};
         {| Soup.name := "p"; Soup.text := "Body text."; Soup.class_ := [] |} ])
  = String.append "Title" (String "010" "Body text.").
Proof.
  apply (paragraphs_come_out_joined
    [ {| Soup.name := "h1"; Soup.text := "Title"; Soup.class_ := [] |};
      {| Soup.name := "div"; Soup.text := "  menu  "; Soup.class_ := ["nav"] |};
      {| Soup.name := "p"; Soup.text := ""; Soup.class_ := [] |};
      {| Soup.name := "p"; Soup.text := "Body text."; Soup.class_ := [] |} ]).
  vm_compute.
  repeat (constructor; [first [now left | now right] |]). constructor.
Defined.

(** From the answer of the client to the returned text: when the page
    parses into paragraphs and headings that each hold one clean line or
    nothing, both adapters return these lines joined by line feeds. *)
Theorem scrape_clean_page (make_soup : Adapter.Response -> result Soup.soup)
    (response : Adapter.Response) (s : Soup.soup) (link : string) :
  make_soup response = Ok s ->
  Forall (fun element => Soup.text element = ""
                         \/ normal_line (Soup.text element) = true)
         (Soup.find_all ["p"; "h1"; "h2"; "h3"; "h4"; "h5"] s) ->
  (forall get, get (ScrapingBeeScraper.request_for link) = Ok response ->
     fst (ScrapingBeeScraper.scrape get (Soup.reader make_soup) link)
     = Ok (PyStr.join PyStr.LF
             (filter (fun t => truthy t)
                (map Soup.text
                   (Soup.find_all ["p"; "h1"; "h2"; "h3"; "h4"; "h5"] s))))) /\
  (forall get, get (ZenRowsScraper.request_for link) = Ok response ->
     fst (ZenRowsScraper.scrape get (Soup.reader make_soup) link)
     = Ok (PyStr.join PyStr.LF
             (filter (fun t => truthy t)
                (map Soup.text
                   (Soup.find_all ["p"; "h1"; "h2"; "h3"; "h4"; "h5"] s))))).
Proof.
  intros Hsoup Hclean.
  assert (H : text_content (Soup.parse_page s)
              = PyStr.join PyStr.LF
                  (filter (fun t => truthy t)
                     (map Soup.text
                        (Soup.find_all ["p"; "h1"; "h2"; "h3"; "h4"; "h5"] s)))).
  { unfold Soup.parse_page. rewrite fold_left_lines.
    change ("" ++ ?x) with x. now apply clean_lines. }
  split; intros get Hget; simpl;
    unfold Adapter.read_response, Soup.reader; rewrite Hget; simpl;
    rewrite Hsoup; simpl; now rewrite H.
Qed.

Lemma scrape_clean_page_witness :
  fst (ScrapingBeeScraper.scrape
         (fun _ => Ok {| Adapter.status_code := 200; Adapter.content := "<html/>";
                         Adapter.encoding := None |})
         (Soup.reader (fun _ =>
            Ok [ {| Soup.name := "h2"; Soup.text := "News"; Soup.class_ := [] |};
                 {| Soup.name := "p"; Soup.text := "One line."; Soup.class_ := [] |} ]))
         "https://example.com/")
  = Ok (String.append "News" (String "010" "One line.")).
Proof.
  apply (scrape_clean_page
    (fun _ => Ok [ {| Soup.name := "h2"; Soup.text := "News"; Soup.class_ := [] |};
                   {| Soup.name := "p"; Soup.text := "One line."; Soup.class_ := [] |} ])
    {| Adapter.status_code := 200; Adapter.content := "<html/>";
       Adapter.encoding := None |}
    [ {| Soup.name := "h2"; Soup.text := "News"; Soup.class_ := [] |};
      {| Soup.name := "p"; Soup.text := "One line."; Soup.class_ := [] |} ]
    "https://example.com/" eq_refl).
  - vm_compute.
    repeat (constructor; [first [now left | now right] |]). constructor.
  - reflexivity.
Defined.

(** Both adapters always return a string, never an exception: the empty
    string when the client or the reading of the page raises, and
    otherwise the cleaned-up text of the page, which is in normal form
    and which a second clean-up leaves alone. *)
Theorem adapters_return_clean_text (read : Adapter.html_reader) (link : string) :
  (forall get, exists s,
     fst (ScrapingBeeScraper.scrape get read link) = Ok s /\
     normal_form s /\ text_content s = s /\
     (forall e, Adapter.read_response read
                  (get (ScrapingBeeScraper.request_for link)) = Raise e ->
                s = "") /\
     (forall response raw_content,
        get (ScrapingBeeScraper.request_for link) = Ok response ->
        read response = Ok raw_content -> s = text_content raw_content)) /\
  (forall get, exists s,
     fst (ZenRowsScraper.scrape get read link) = Ok s /\
     normal_form s /\ text_content s = s /\
     (forall e, Adapter.read_response read
                  (get (ZenRowsScraper.request_for link)) = Raise e ->
                s = "") /\
     (forall response raw_content,
        get (ZenRowsScraper.request_for link) = Ok response ->
        read response = Ok raw_content -> s = text_content raw_content)).
Proof.
  assert (Hempty : normal_form "" /\ text_content "" = "")
    by (split; [now exists [] | reflexivity]).
  assert (H : forall answer : result Adapter.Response, exists s,
     try_except (Adapter.read_response read answer) (fun _ => Ok "") = Ok s /\
     normal_form s /\ text_content s = s /\
     (forall e, Adapter.read_response read answer = Raise e -> s = "") /\
     (forall response raw_content, answer = Ok response ->
        read response = Ok raw_content -> s = text_content raw_content)).
  { intros answer. unfold Adapter.read_response.
    destruct answer as [response|e]; simpl.
    - destruct (read response) as [raw|e] eqn:Hread; simpl.
      + exists (text_content raw). split; [reflexivity|].
        split; [apply text_content_normal_form|].
        split.
        * destruct (text_content_normal_form raw) as (ls & -> & Hls).
          now apply text_content_join.
        * split; [discriminate|]. intros r' raw' [= <-] Hr.
          rewrite Hread in Hr. now injection Hr as <-.
      + exists "". split; [reflexivity|]. destruct Hempty as [H1 H2].
        split; [exact H1|]. split; [exact H2|].
        split; [reflexivity|]. intros r' raw' [= <-] Hr.
        rewrite Hread in Hr. discriminate.
    - exists "". split; [reflexivity|]. destruct Hempty as [H1 H2].
      split; [exact H1|]. split; [exact H2|].
      split; [reflexivity | discriminate]. }
  split; intros get; apply H.
Qed.

End NormalizerMore.

(** ** scraping_bee.py, zenrows.py: the comment-thread reader *)

Module SoupFacts.
Import Soup.

Local Open Scope string_scope.

Lemma kept_spec (element : Tag) :
  kept element = true <-> Normalizer.strip (text element) <> "".
Proof.
  unfold kept. rewrite andb_true_iff, negb_true_iff, String.eqb_neq,
    NormalizerFacts.truthy_spec.
  split; [tauto|]. intros H. split; [|exact H].
  intros Ht. rewrite Ht in H. now apply H.
Qed.

Lemma comment_fold (l : list Tag) (acc : list string) :
  fold_left (fun acc element =>
               if kept element then (acc ++ [text element])%list else acc) l acc
  = (acc ++ map text (filter (fun element => kept element) l))%list.
Proof.
  revert acc. induction l as [|t l IH]; intros acc; simpl.
  - now rewrite app_nil_r.
  - rewrite IH. destruct (kept t) eqn:Hk.
    + rewrite filter_cons_True by (now apply Is_true_true).
      simpl. now rewrite <- app_assoc.
    + rewrite filter_cons_False; [reflexivity|].
      intros H. apply Is_true_true in H. congruence.
Qed.

Lemma comment_array_filter (s : soup) :
  comment_array s
  = map text (filter (fun element => kept element)
                     (find_all_class ["usertext-body"] s)).
Proof. unfold comment_array. apply (comment_fold _ []). Qed.

Lemma blocks_fold (cs : list string) (k : nat) (acc : string) :
  fold_left
    (fun text_content '(index, comment) =>
       text_content ++ comment_block (index + 1) comment)
    (imap (fun index x => (k + index, x)) cs) acc
  = acc ++ foldr String.append ""
             (imap (fun index c => comment_block (k + index + 1) c) cs).
Proof.
  revert k acc. induction cs as [|c cs IH]; intros k acc.
  - simpl. now rewrite app_empty_r.
  - rewrite !imap_cons. cbn [fold_left foldr].
    rewrite (imap_ext _ (fun index x => (S k + index, x)))
      by (intros i x _; unfold compose; cbn beta; f_equal; lia).
    rewrite IH, app_assoc_str. do 3 f_equal.
    apply imap_ext. intros i x _. unfold compose. cbn beta. f_equal. lia.
Qed.

Lemma parse_reddit_page_blocks (s : soup) :
  parse_reddit_page s
  = foldr String.append ""
      (imap (fun index c => comment_block (index + 1) c) (comment_array s)).
Proof.
  unfold parse_reddit_page, enumerate.
  apply (blocks_fold (comment_array s) 0 "").
Qed.

Lemma foldr_append_piece (l : list string) (k : nat) (b : string) :
  l !! k = Some b -> exists p q, foldr String.append "" l = p ++ b ++ q.
Proof.
  revert k. induction l as [|x l IH]; intros k; [discriminate|].
  destruct k as [|k]; simpl.
  - intros [= <-]. now exists "", (foldr String.append "" l).
  - intros Hk. destruct (IH k Hk) as (p & q & ->).
    exists (x ++ p), q. now rewrite app_assoc_str.
Qed.


End SoupFacts.

(** ** db_utils.py: the database manager *)

Module DbFacts.
Import Db.

Section Methods.

Variable float : Type.
Variable zero : float.
Variable execute : executor float.
Variable dumps : json -> string.
Variable uuid4 utcnow : string.


(** [create_research_job]: when the insert itself raises, whatever the
    exception, the caller gets an [UnboundLocalError] for the local
    [response] in its place.  The identifier is returned exactly when the
    database answered without error and with data; an error in the
    answer is reported before missing data. *)
Theorem create_research_job_outcomes (query_ : string)
    (agent role report_type : option string) (additional_info : json) :
  exists job_data : gmap string (value float),
    job_data !! "id" = Some (VStr uuid4) /\
    job_data !! "query" = Some (VStr query_) /\
    job_data !! "status" = Some (VStr "in_progress") /\
    job_data !! "report" = Some VNone /\
    (forall e, execute (Insert "jobs" job_data) = Raise e ->
       create_research_job zero execute dumps uuid4 utcnow query_ agent role
         report_type additional_info
       = Raise (UnboundLocalError "response")) /\
    (forall response, execute (Insert "jobs" job_data) = Ok response ->
       create_research_job zero execute dumps uuid4 utcnow query_ agent role
         report_type additional_info
       = match error response with
         | Some e => Raise (Exception ("Error creating job: " ++ e))
         | None =>
             if no_data response
             then Raise (Exception "No data returned from insert operation")
             else Ok uuid4
         end).
Proof.
  eexists. split; [|split; [|split; [|split; [|split]]]].
  5:{ intros e He. unfold create_research_job. rewrite He. reflexivity. }
  5:{ intros response Hr. unfold create_research_job. rewrite Hr.
      unfold check_error, check_data.
      destruct (error response); simpl; [reflexivity|].
      destruct (no_data response); reflexivity. }
  all: reflexivity.
Qed.

(** Reading what is not there: when the database answers without error
    and without rows, [get_research_job] returns [None] and does not
    raise; [get_scraped_pages] returns the empty list when the answer
    holds an empty list, and raises [TypeError] when it holds [None]. *)
Theorem reads_without_rows (job_id : string) (response : Response float) :
  error response = None ->
  no_data response = true ->
  (execute (Select "jobs" "id" job_id) = Ok response ->
   get_research_job execute job_id = Ok None) /\
  (execute (Select "pages" "job_id" job_id) = Ok response ->
   get_scraped_pages execute job_id
   = match data response with
     | Some _ => Ok []
     | None => Raise (TypeError "object of type 'NoneType' has no len()")
     end).
Proof.
  intros He Hd. split; intros Hx.
  - unfold get_research_job. rewrite Hx. simpl.
    unfold check_error, first_row. rewrite He. simpl.
    unfold no_data in Hd. destruct (data response) as [[|row rows]|];
      [reflexivity | discriminate | reflexivity].
  - unfold get_scraped_pages. rewrite Hx. simpl.
    unfold check_error. rewrite He. simpl.
    unfold no_data in Hd. destruct (data response) as [[|row rows]|];
      [reflexivity | discriminate | reflexivity].
Qed.

(** The row [update_research_job] writes: the finishing time, the status
    and the error message are always written (so a call without
    [error_message] sets the stored one to null), while the costs, the
    visited URLs and the report are written only when they are given. *)
Theorem update_writes_only_what_is_given (status : string)
    (research_costs : option float) (visited_urls : option (list string))
    (report error_message : option string) :
  let row := update_data dumps utcnow status research_costs visited_urls
                         report error_message in
  row !! "finished_at" = Some (VStr utcnow) /\
  row !! "status" = Some (VStr status) /\
  row !! "error_message" = Some (of_option error_message) /\
  row !! "research_costs" = VFloat <$> research_costs /\
  row !! "visited_urls"
    = (fun us => VStr (dumps (JList (map JStr us)))) <$> visited_urls /\
  row !! "report" = VStr <$> report /\
  (forall column,
     ~ In column ["finished_at"; "status"; "error_message"; "research_costs";
                  "visited_urls"; "report"] ->
     row !! column = None).
Proof.
  intros row. subst row. unfold update_data.
  destruct research_costs as [c|], visited_urls as [us|], report as [r|];
    (repeat (split; [reflexivity|]));
    intros column Hcol; simpl in Hcol;
    rewrite ?lookup_insert_ne by (intros <-; tauto);
    apply not_elem_of_list_to_map; simpl;
    rewrite !elem_of_cons, elem_of_nil; intros [->|[->|[->|[]]]];
    apply Hcol; intuition.
Qed.

End Methods.

Lemma reads_without_rows_witness :
  get_research_job
    (fun _ => Ok {| error := None; data := Some ([] : list (gmap string (value Z))) |})
    "job-1" = Ok None.
Proof.
  apply (reads_without_rows Z
           (fun _ => Ok {| error := None; data := Some [] |})
           "job-1" {| error := None; data := Some [] |});
    reflexivity.
Defined.

Section Singleton.

Variable Client : Type.

(** The call [DatabaseManager()], repeated.  Once a call has succeeded,
    every later call returns the same object without reading the
    environment or creating a client again, whatever the environment
    then holds.  A call fails without creating a client when either
    variable is missing or empty; a failed call leaves the object
    uninitialised, so that the next call tries again. *)
Theorem manager_is_built_once
    (create_client : string -> string -> result Client)
    (env : gmap string string) (cls_instance : option (instance Client)) :
  let '(r, cls', calls) := DatabaseManager create_client env cls_instance in
  calls <= 1 /\
  (forall self, r = Ok self ->
     cls' = Some self /\ initialized self = true /\
     forall create_client' env',
       DatabaseManager create_client' env' cls' = (Ok self, cls', 0)) /\
  (forall e, r = Raise e ->
     exists self, cls' = Some self /\ initialized self = false /\
       supabase self = (cls_instance ≫= @supabase Client)) /\
  (unset (env !! "SUPABASE_URL") || unset (env !! "SUPABASE_SERVICE_ROLE_KEY")
   = true ->
   (forall self, cls_instance = Some self -> initialized self = false) ->
   r = Raise missing_settings /\ calls = 0).
Proof.
  unfold DatabaseManager.
  destruct (initialized (default fresh cls_instance)) eqn:Hinit.
  { split; [lia|]. split.
    - intros self [= <-]. split; [reflexivity|]. split; [exact Hinit|].
      intros cc' env'. unfold DatabaseManager. simpl. now rewrite Hinit.
    - split; [discriminate|]. intros _ Hno. exfalso.
      destruct cls_instance as [inst|]; simpl in Hinit; [|discriminate].
      rewrite (Hno inst eq_refl) in Hinit. discriminate. }
  assert (Hsup : supabase (default fresh cls_instance)
                 = (cls_instance ≫= @supabase Client))
    by (now destruct cls_instance).
  destruct (env !! "SUPABASE_URL") as [u|] eqn:Hu;
    [destruct (env !! "SUPABASE_SERVICE_ROLE_KEY") as [k|] eqn:Hk|].
  - destruct (unset (Some u) || unset (Some k)) eqn:Hunset.
    + split; [lia|]. split; [discriminate|]. split.
      * intros e _. eexists. split; [reflexivity|]. simpl. now split.
      * intros _ _. now split.
    + destruct (create_client u k) as [c|e0].
      * split; [lia|]. split.
        -- intros self [= <-]. split; [reflexivity|]. split; [reflexivity|].
           intros cc' env'. reflexivity.
        -- split; [discriminate|]. discriminate.
      * split; [lia|]. split; [discriminate|]. split.
        -- intros e _. eexists. split; [reflexivity|]. simpl. now split.
        -- discriminate.
  - split; [lia|]. split; [discriminate|]. split.
    + intros e _. eexists. split; [reflexivity|]. simpl. now split.
    + intros _ _. now split.
  - split; [lia|]. split; [discriminate|]. split.
    + intros e _. eexists. split; [reflexivity|]. simpl. now split.
    + intros _ _. now split.
Qed.

End Singleton.

End DbFacts.
